(** * Real-time statistics subsystem of the product API

    A shallow embedding of [internal/storage/cache] (the [StatsCache]) and of
    [internal/business/usecase] (the [statsUseCase]) together with the
    properties of the statistics subsystem that follow from the code.

    Conventions of the embedding
    - Go [uint] is [N], Go [int] and [int64] are [Z]; no arithmetic is done on
      them by the code under study, so no wrap-around shows up.
    - Go maps are [gmap]s.  A Go [nil] map and an empty map are the same
      mapping; ranging over either runs no iteration.
    - [time.Time] is an instant in [Z]; the zero [time.Time] is [0].
    - A method that holds [c.mutex] from entry to exit is one atomic step on
      the cache: the sequential functions below are those steps, and the
      [Interleaving] module schedules them between goroutines. *)

From stdpp Require Import gmap strings list fin_maps pretty.
From Stdlib Require Import ZArith NArith Lia Ascii.
From Stdlib Require PrimFloat.

Open Scope string_scope.
Open Scope list_scope.

(** ** Entities ([internal/business/entity]) *)

Record TopProduct := mkTopProduct {
  tp_ProductID : N;
  tp_ProductName : string;
  tp_Count : Z;
  tp_Metric : string
}.

Record CategoryStat := mkCategoryStat {
  cs_CategoryID : N;
  cs_CategoryName : string;
  cs_ProductCount : Z
}.

Record WishlistStat := mkWishlistStat {
  ws_ProductID : N;
  ws_ProductName : string;
  ws_WishlistCount : Z
}.

Record Category := mkCategory {
  cat_ID : N;
  cat_Name : string;
  cat_Description : string
}.

(** Only the fields of [entity.Product] that the statistics code reads. *)
Record Product := mkProduct {
  prod_ID : N;
  prod_Name : string
}.

Record ProductFilter := mkProductFilter {
  pf_Page : Z;
  pf_PageSize : Z
}.

(** A Go [error] value, identified by its message. *)
Definition Error := string.

(** Instants and durations, in nanoseconds. *)
Definition Time := Z.
Definition Duration := Z.

Definition zeroTime : Time := 0%Z.
Definition maxDuration : Duration := (2 ^ 63 - 1)%Z.
Definition minDuration : Duration := (- 2 ^ 63)%Z.

(** [t.Sub(u)]: the difference, saturated to the range of [Duration]. *)
Definition Time_Sub (t u : Time) : Duration :=
  Z.max minDuration (Z.min maxDuration (t - u)).

(** The dynamic values the program stores behind [interface{}]:
    [int64] counters, the [float64] average (kept as its IEEE-754 bit
    pattern; the program only ever stores [0.0]), the [[]entity.TopProduct]
    slice and the [string] that [GetAll] synthesises. *)
Inductive Value :=
| VInt64 (n : Z)
| VFloat64 (bits : Z)
| VTopProducts (l : list TopProduct)
| VString (s : string).

(** The outcome of a Go function returning [(T, error)] that returns either
    [(v, nil)] or [(nil, err)]. *)
Inductive Result (A : Type) :=
| Ok (a : A)
| Fail (e : Error).
Arguments Ok {A} a.
Arguments Fail {A} e.

(** ** The snapshot cache ([StatsCache]) *)

Module Cache.

Record StatsCache := mkStatsCache {
  data : gmap string Value;
  categoryCounts : gmap N Z;
  wishlistCounts : gmap N Z;
  lastRefreshed : Time
}.

(** [NewStatsCache]: three empty maps, [lastRefreshed] left at its zero
    value. *)
Definition NewStatsCache : StatsCache :=
  {| data := ∅; categoryCounts := ∅; wishlistCounts := ∅;
     lastRefreshed := zeroTime |}.

(** [dst := make(map[K]V, len(src)); for k, v := range src { dst[k] = v }],
    the copy loop shared by [GetAll] and the four count accessors.  The
    capacity hint of [make] has no observable effect. *)
Definition copy_map `{Countable K} {V} (src : gmap K V) : gmap K V :=
  map_fold (fun k v dst => <[k := v]> dst) ∅ src.

(** Each function takes as [now] the reading of [time.Now()] made while the
    method holds the lock. *)
Definition Set_ (key : string) (value : Value) (now : Time)
    (c : StatsCache) : StatsCache :=
  {| data := <[key := value]> (data c);
     categoryCounts := categoryCounts c;
     wishlistCounts := wishlistCounts c;
     lastRefreshed := now |}.

Definition Get (key : string) (c : StatsCache) : option Value :=
  data c !! key.

Section WithFormat.

(** [t.Format(time.RFC3339)] of the Go standard library. *)
Variable formatRFC3339 : Time -> string.

Definition GetAll (c : StatsCache) : gmap string Value :=
  let result := copy_map (data c) in
  <["last_refreshed" := VString (formatRFC3339 (lastRefreshed c))]> result.

End WithFormat.

Definition SetCategoryCounts (counts : gmap N Z) (now : Time)
    (c : StatsCache) : StatsCache :=
  {| data := data c;
     categoryCounts := copy_map counts;
     wishlistCounts := wishlistCounts c;
     lastRefreshed := now |}.

Definition GetCategoryCounts (c : StatsCache) : gmap N Z :=
  copy_map (categoryCounts c).

Definition SetWishlistCounts (counts : gmap N Z) (now : Time)
    (c : StatsCache) : StatsCache :=
  {| data := data c;
     categoryCounts := categoryCounts c;
     wishlistCounts := copy_map counts;
     lastRefreshed := now |}.

Definition GetWishlistCounts (c : StatsCache) : gmap N Z :=
  copy_map (wishlistCounts c).

Definition Clear (now : Time) (c : StatsCache) : StatsCache :=
  {| data := ∅; categoryCounts := ∅; wishlistCounts := ∅;
     lastRefreshed := now |}.

Definition GetLastRefreshed (c : StatsCache) : Time := lastRefreshed c.

End Cache.

(** ** The statistics use case ([statsUseCase]) *)

Module UseCase.
Import Cache.

(** The repository interfaces of [internal/storage], restricted to the
    methods the statistics code calls.  A call returns what the Go
    signature allows: every value together with a possibly-nil error.  The
    context argument only reaches the repositories, whose failures (deadline
    and cancellation included) come back as errors. *)
Record ProductRepository := mkProductRepository {
  product_List : ProductFilter -> list Product * Z * option Error;
  product_FindByID : N -> option Product * option Error
}.

Record CategoryRepository := mkCategoryRepository {
  category_List : list Category * option Error
}.

(** What a use case is built from and never changes afterwards, together
    with the wall clock: [clock n] is the [n]-th reading of [time.Now()]. *)
Record Deps := mkDeps {
  productRepo : ProductRepository;
  categoryRepo : CategoryRepository;
  refreshTimeout : Duration;
  clock : nat -> Time;
  formatRFC3339 : Time -> string
}.

Inductive LogEntry :=
| LogInfo (msg : string)
| LogError (err : Error) (msg : string).

#[global] Instance LogEntry_eq_dec : EqDecision LogEntry.
Proof. unfold Error. solve_decision. Defined.

(** The mutable part: the cache behind [uc.cache], [uc.lastRefresh], the
    number of clock readings made so far, the lines written through
    [uc.logger] and the payloads handed to [uc.wsHub.Broadcast]. *)
Record State := mkState {
  cache : StatsCache;
  lastRefresh : Time;
  ticks : nat;
  log : list LogEntry;
  broadcasts : list string
}.

(** *** A state monad for the method bodies *)

Definition M (A : Type) : Type := State -> A * State.

Definition ret {A} (a : A) : M A := fun s => (a, s).

Definition bind {A B} (m : M A) (k : A -> M B) : M B :=
  fun s => let (a, s') := m s in k a s'.

Notation "'let*' x ':=' m 'in' k" := (bind m (fun x => k))
  (at level 10, x name, m at level 100, k at level 200).
Notation "m ';;;' k" := (bind m (fun _ => k))
  (at level 100, k at level 200, right associativity).

Definition getCache : M StatsCache := fun s => (cache s, s).

Definition modifyCache (f : StatsCache -> StatsCache) : M unit :=
  fun s => (tt, mkState (f (cache s)) (lastRefresh s) (ticks s) (log s)
                        (broadcasts s)).

Definition getLastRefresh : M Time := fun s => (lastRefresh s, s).

Definition setLastRefresh (t : Time) : M unit :=
  fun s => (tt, mkState (cache s) t (ticks s) (log s) (broadcasts s)).

Definition writeLog (e : LogEntry) : M unit :=
  fun s => (tt, mkState (cache s) (lastRefresh s) (ticks s) (log s ++ [e])
                        (broadcasts s)).

Definition Broadcast (message : string) : M unit :=
  fun s => (tt, mkState (cache s) (lastRefresh s) (ticks s) (log s)
                        (broadcasts s ++ [message])).

Section WithDeps.

Variable uc : Deps.

(** [time.Now()] *)
Definition timeNow : M Time :=
  fun s => (clock uc (ticks s),
            mkState (cache s) (lastRefresh s) (S (ticks s)) (log s)
                    (broadcasts s)).

(** [time.Since(t)] is [time.Now().Sub(t)]. *)
Definition timeSince (t : Time) : M Duration :=
  let* now := timeNow in ret (Time_Sub now t).

(** The cache methods as the use case calls them: each takes the lock,
    reads the clock where the method does, and releases the lock. *)
Definition cacheSet (key : string) (value : Value) : M unit :=
  let* now := timeNow in modifyCache (Set_ key value now).

Definition cacheSetCategoryCounts (counts : gmap N Z) : M unit :=
  let* now := timeNow in modifyCache (SetCategoryCounts counts now).

Definition cacheSetWishlistCounts (counts : gmap N Z) : M unit :=
  let* now := timeNow in modifyCache (SetWishlistCounts counts now).

Definition cacheClear : M unit :=
  let* now := timeNow in modifyCache (Clear now).

Definition cacheGet (key : string) : M (option Value) :=
  let* c := getCache in ret (Get key c).

Definition cacheGetAll : M (gmap string Value) :=
  let* c := getCache in ret (GetAll (formatRFC3339 uc) c).

Definition cacheGetCategoryCounts : M (gmap N Z) :=
  let* c := getCache in ret (GetCategoryCounts c).

Definition cacheGetWishlistCounts : M (gmap N Z) :=
  let* c := getCache in ret (GetWishlistCounts c).

(** *** RefreshStats *)

(** The variables of [RefreshStats] that its goroutines assign and that it
    reads after [wg.Wait()]. *)
Record Collected := mkCollected {
  productCount : Z;
  userCount : Z;
  reviewCount : Z;
  avgRating : Z;
  categoryCounts_ : gmap N Z;
  wishlistCounts_ : gmap N Z;
  topProducts : list TopProduct;
  productCountErr : option Error;
  userCountErr : option Error;
  reviewCountErr : option Error;
  avgRatingErr : option Error;
  categoryCountsErr : option Error;
  wishlistCountsErr : option Error;
  topProductsErr : option Error
}.

(** The [var ( ... )] block: every variable at its zero value. *)
Definition zeroCollected : Collected :=
  {| productCount := 0; userCount := 0; reviewCount := 0; avgRating := 0;
     categoryCounts_ := ∅; wishlistCounts_ := ∅; topProducts := [];
     productCountErr := None; userCountErr := None; reviewCountErr := None;
     avgRatingErr := None; categoryCountsErr := None;
     wishlistCountsErr := None; topProductsErr := None |}.

(** Assignments to single variables of the block. *)
Definition setProductCount (n : Z) (v : Collected) : Collected :=
  mkCollected n (userCount v) (reviewCount v) (avgRating v)
    (categoryCounts_ v) (wishlistCounts_ v) (topProducts v)
    (productCountErr v) (userCountErr v) (reviewCountErr v) (avgRatingErr v)
    (categoryCountsErr v) (wishlistCountsErr v) (topProductsErr v).

Definition setProductCountErr (err : option Error) (v : Collected)
    : Collected :=
  mkCollected (productCount v) (userCount v) (reviewCount v) (avgRating v)
    (categoryCounts_ v) (wishlistCounts_ v) (topProducts v)
    err (userCountErr v) (reviewCountErr v) (avgRatingErr v)
    (categoryCountsErr v) (wishlistCountsErr v) (topProductsErr v).

Definition setCategoryCounts (counts : gmap N Z) (err : option Error)
    (v : Collected) : Collected :=
  mkCollected (productCount v) (userCount v) (reviewCount v) (avgRating v)
    counts (wishlistCounts_ v) (topProducts v)
    (productCountErr v) (userCountErr v) (reviewCountErr v) (avgRatingErr v)
    err (wishlistCountsErr v) (topProductsErr v).

Definition setWishlistCounts (counts : gmap N Z) (err : option Error)
    (v : Collected) : Collected :=
  mkCollected (productCount v) (userCount v) (reviewCount v) (avgRating v)
    (categoryCounts_ v) counts (topProducts v)
    (productCountErr v) (userCountErr v) (reviewCountErr v) (avgRatingErr v)
    (categoryCountsErr v) err (topProductsErr v).

Definition setTopProducts (l : list TopProduct) (err : option Error)
    (v : Collected) : Collected :=
  mkCollected (productCount v) (userCount v) (reviewCount v) (avgRating v)
    (categoryCounts_ v) (wishlistCounts_ v) l
    (productCountErr v) (userCountErr v) (reviewCountErr v) (avgRatingErr v)
    (categoryCountsErr v) (wishlistCountsErr v) err.

(** The four goroutines.  They assign disjoint variables and only the
    first one touches shared state (the logger), so running them one after
    the other yields what [wg.Wait()] leaves behind. *)

(** [result, productCount, err = uc.productRepo.List(ctx, ...)], then the
    error branch. *)
Definition productCountTask (v : Collected) : M Collected :=
  let '(_, count, err) :=
    product_List (productRepo uc) (mkProductFilter 1 1) in
  let v := setProductCount count v in
  match err with
  | Some e =>
      let v := setProductCountErr (Some e) v in
      writeLog (LogError e "Failed to count products") ;;;
      ret v
  | None => ret v
  end.

(** [categoryCounts = make(map[uint]int); categoryCountsErr = nil] *)
Definition categoryCountsTask (v : Collected) : M Collected :=
  ret (setCategoryCounts ∅ None v).

(** [wishlistCounts = make(map[uint]int); wishlistCountsErr = nil] *)
Definition wishlistCountsTask (v : Collected) : M Collected :=
  ret (setWishlistCounts ∅ None v).

(** [topProducts = make([]entity.TopProduct, 0); topProductsErr = nil] *)
Definition topProductsTask (v : Collected) : M Collected :=
  ret (setTopProducts [] None v).

Definition collect : M Collected :=
  let* v1 := productCountTask zeroCollected in
  let* v2 := categoryCountsTask v1 in
  let* v3 := wishlistCountsTask v2 in
  topProductsTask v3.

(** The chain of [if xErr != nil { return xErr }]. *)
Definition checkErrors (v : Collected) : option Error :=
  match productCountErr v with Some e => Some e | None =>
  match userCountErr v with Some e => Some e | None =>
  match reviewCountErr v with Some e => Some e | None =>
  match avgRatingErr v with Some e => Some e | None =>
  match categoryCountsErr v with Some e => Some e | None =>
  match wishlistCountsErr v with Some e => Some e | None =>
  match topProductsErr v with Some e => Some e | None =>
  None end end end end end end end.

Definition dquote : string := String "034"%char EmptyString.

(** The literal payload [{"event":"stats_update","data":...}]. *)
Definition statsUpdatePayload : string :=
  "{" +:+ dquote +:+ "event" +:+ dquote +:+ ":" +:+ dquote +:+ "stats_update"
  +:+ dquote +:+ "," +:+ dquote +:+ "data" +:+ dquote +:+ ":...}".

(** Everything [RefreshStats] does once [wg.Wait()] has returned. *)
Definition afterWait (v : Collected) : M (option Error) :=
  match checkErrors v with
  | Some e => ret (Some e)
  | None =>
      cacheSet "total_products" (VInt64 (productCount v)) ;;;
      cacheSet "total_users" (VInt64 (userCount v)) ;;;
      cacheSet "total_reviews" (VInt64 (reviewCount v)) ;;;
      cacheSet "average_rating" (VFloat64 (avgRating v)) ;;;
      cacheSet "top_products" (VTopProducts (topProducts v)) ;;;
      cacheSetCategoryCounts (categoryCounts_ v) ;;;
      cacheSetWishlistCounts (wishlistCounts_ v) ;;;
      let* now := timeNow in
      setLastRefresh now ;;;
      writeLog (LogInfo "Statistics refreshed") ;;;
      Broadcast statsUpdatePayload ;;;
      ret None
  end.

Definition RefreshStats : M (option Error) :=
  writeLog (LogInfo "Refreshing statistics") ;;;
  let* v := collect in
  afterWait v.

(** *** Vocabulary for the properties of a refresh *)

(** The one repository call a refresh makes. *)
Definition listing : list Product * Z * option Error :=
  product_List (productRepo uc) (mkProductFilter 1 1).

(** What [wg.Wait()] leaves behind when the listing succeeded, and when it
    failed. *)
Definition collectedOk (count : Z) : Collected :=
  mkCollected count 0 0 0 ∅ ∅ [] None None None None None None None.

Definition collectedFailed (count : Z) (e : Error) : Collected :=
  mkCollected count 0 0 0 ∅ ∅ [] (Some e) None None None None None None.

(** The errors the tasks left behind, in the order they are checked. *)
Definition reportedErrors (v : Collected) : list Error :=
  omap id [ productCountErr v; userCountErr v; reviewCountErr v;
            avgRatingErr v; categoryCountsErr v; wishlistCountsErr v;
            topProductsErr v ].

(** The number of refresh cycles started, read off the log: each call of
    [RefreshStats] begins by logging this line, and nothing else logs it. *)
Definition refreshAttempts (s : State) : nat :=
  length (filter (fun entry => entry = LogInfo "Refreshing statistics") (log s)).

(** *** The read paths *)

Definition GetStats : M (Result (gmap string Value)) :=
  let* lr := getLastRefresh in
  let* age := timeSince lr in
  let needsRefresh := (refreshTimeout uc <? age)%Z in
  if needsRefresh then
    let* err := RefreshStats in
    match err with
    | Some e => ret (Fail e)
    | None => let* all := cacheGetAll in ret (Ok all)
    end
  else
    let* all := cacheGetAll in ret (Ok all).

(** The inner loop of [GetCategoryStats]: the name of the first category
    whose ID is [id], or the name held before the loop. *)
Fixpoint resolveName (categories : list Category) (id : N)
    (categoryName : string) : string :=
  match categories with
  | [] => categoryName
  | cat :: rest =>
      if (cat_ID cat =? id)%N then cat_Name cat
      else resolveName rest id categoryName
  end.

(** The outer loop: one [append] per entry of the map.  Go leaves the
    order of a [range] over a map unspecified; the entries are taken here
    in the order of [map_to_list]. *)
Definition categoryStatsLoop (categories : list Category)
    (entries : list (N * Z)) : list CategoryStat :=
  foldl (fun stats '(id, count) =>
           let categoryName := resolveName categories id "Unknown" in
           stats ++ [mkCategoryStat id categoryName count])
        [] entries.

(** What one entry of the wishlist counts contributes to the result of
    [GetWishlistStats]: a statistic when the lookup of the product reports
    no error and a product, nothing otherwise. *)
Definition foundStat (entry : N * Z) : option WishlistStat :=
  match product_FindByID (productRepo uc) entry.1 with
  | (Some p, None) => Some (mkWishlistStat entry.1 (prod_Name p) entry.2)
  | _ => None
  end.

(** The statistic [GetCategoryStats] builds for one entry. *)
Definition namedStat (categories : list Category) (entry : N * Z)
    : CategoryStat :=
  mkCategoryStat entry.1 (resolveName categories entry.1 "Unknown") entry.2.

Definition GetCategoryStats : M (Result (list CategoryStat)) :=
  let* categoryCounts := cacheGetCategoryCounts in
  let continue (categoryCounts : gmap N Z) : M (Result (list CategoryStat)) :=
    let '(categories, err) := category_List (categoryRepo uc) in
    match err with
    | Some e => ret (Fail e)
    | None =>
        ret (Ok (categoryStatsLoop categories (map_to_list categoryCounts)))
    end in
  if decide (size categoryCounts = 0) then
    let* err := RefreshStats in
    match err with
    | Some e => ret (Fail e)
    | None =>
        let* categoryCounts := cacheGetCategoryCounts in
        continue categoryCounts
    end
  else continue categoryCounts.

(** The body of one goroutine of [GetWishlistStats], run on the slice
    accumulated so far. *)
Definition wishlistWorker (id : N) (count : Z) (stats : list WishlistStat)
    : M (list WishlistStat) :=
  let '(product, err) := product_FindByID (productRepo uc) id in
  match err with
  | Some e =>
      writeLog (LogError e "Failed to get product details for wishlist stats")
      ;;; ret stats
  | None =>
      match product with
      | Some p => ret (stats ++ [mkWishlistStat id (prod_Name p) count])
      | None => ret stats
      end
  end.

(** One goroutine per entry, joined by [wg.Wait()].  The goroutines only
    share the logger and the slice, which they extend under [mu]; they are
    run here one after the other in the order of [map_to_list]. *)
Fixpoint wishlistWorkers (entries : list (N * Z)) (stats : list WishlistStat)
    : M (list WishlistStat) :=
  match entries with
  | [] => ret stats
  | (id, count) :: rest =>
      let* stats' := wishlistWorker id count stats in
      wishlistWorkers rest stats'
  end.

Definition GetWishlistStats : M (Result (list WishlistStat)) :=
  let* wishlistCounts := cacheGetWishlistCounts in
  let continue (wishlistCounts : gmap N Z) : M (Result (list WishlistStat)) :=
    let* stats := wishlistWorkers (map_to_list wishlistCounts) [] in
    ret (Ok stats) in
  if decide (size wishlistCounts = 0) then
    let* err := RefreshStats in
    match err with
    | Some e => ret (Fail e)
    | None =>
        let* wishlistCounts := cacheGetWishlistCounts in
        continue wishlistCounts
    end
  else continue wishlistCounts.

(** [value.([]entity.TopProduct)] *)
Definition asTopProducts (value : Value) : option (list TopProduct) :=
  match value with
  | VTopProducts l => Some l
  | _ => None
  end.

(** One [if value, exists := ...; exists { if topProducts, ok := ...; ok ]
    probe of the cache. *)
Definition cachedTopProducts : M (option (list TopProduct)) :=
  let* found := cacheGet "top_products" in
  match found with
  | Some value => ret (asTopProducts value)
  | None => ret None
  end.

Definition GetTopProducts (limit : Z) : M (Result (list TopProduct)) :=
  let* hit := cachedTopProducts in
  match hit with
  | Some topProducts => ret (Ok topProducts)
  | None =>
      let* err := RefreshStats in
      match err with
      | Some e => ret (Fail e)
      | None =>
          let* hit := cachedTopProducts in
          match hit with
          | Some topProducts => ret (Ok topProducts)
          | None => ret (Ok [])
          end
      end
  end.

End WithDeps.

End UseCase.

(** ** Goroutines interleaved on the cache

    Every access to the fields of a [StatsCache] happens inside one of its
    methods, which holds [c.mutex] from entry to exit (exclusively for the
    setters, shared for the getters).  A concurrent execution is therefore an
    interleaving of whole method calls.  [RefreshStats] holds [uc.mutex]
    throughout, but the cache getters do not take that lock: between two of
    its cache calls the cache lock is free and a reader may run. *)

Module Interleaving.
Import Cache UseCase.

(** A call of one of the cache setters. *)
Inductive CacheWrite :=
| WSet (key : string) (value : Value)
| WSetCategoryCounts (counts : gmap N Z)
| WSetWishlistCounts (counts : gmap N Z).

Definition applyWrite (wr : CacheWrite) (now : Time) (c : StatsCache)
    : StatsCache :=
  match wr with
  | WSet key value => Set_ key value now c
  | WSetCategoryCounts counts => SetCategoryCounts counts now c
  | WSetWishlistCounts counts => SetWishlistCounts counts now c
  end.

(** The cache calls under the comment [// Update the cache], in program
    order. *)
Definition refreshWrites (v : Collected) : list CacheWrite :=
  [ WSet "total_products" (VInt64 (productCount v));
    WSet "total_users" (VInt64 (userCount v));
    WSet "total_reviews" (VInt64 (reviewCount v));
    WSet "average_rating" (VFloat64 (avgRating v));
    WSet "top_products" (VTopProducts (topProducts v));
    WSetCategoryCounts (categoryCounts_ v);
    WSetWishlistCounts (wishlistCounts_ v) ].

(** The cache calls one execution of [RefreshStats] makes after
    [wg.Wait()]: none when an error was collected. *)
Definition refreshSteps (v : Collected) : list CacheWrite :=
  match checkErrors v with
  | Some _ => []
  | None => refreshWrites v
  end.

(** The writes run back to back, each reading the clock once. *)
Fixpoint applyWrites (clock : nat -> Time) (ws : list CacheWrite)
    (ticks : nat) (c : StatsCache) : StatsCache :=
  match ws with
  | [] => c
  | wr :: rest => applyWrites clock rest (S ticks) (applyWrite wr (clock ticks) c)
  end.

(** What the scheduler picks next: the refreshing goroutine's next cache
    call, or a whole [Get] or [GetAll] of some reader. *)
Inductive Event :=
| EvRefreshWrite
| EvGet (key : string)
| EvGetAll.

(** What a reader got back. *)
Inductive Observation :=
| ObsGet (key : string) (found : option Value)
| ObsGetAll (all : gmap string Value).

Section Run.

Variable clock : nat -> Time.
Variable formatRFC3339 : Time -> string.

(** Runs a schedule against the pending cache calls of the refresh and
    returns the readers' observations in the order they were made. *)
Fixpoint run (sched : list Event) (pending : list CacheWrite) (ticks : nat)
    (c : StatsCache) : list Observation :=
  match sched with
  | [] => []
  | EvRefreshWrite :: rest =>
      match pending with
      | [] => run rest [] ticks c
      | wr :: ws => run rest ws (S ticks) (applyWrite wr (clock ticks) c)
      end
  | EvGet key :: rest => ObsGet key (Get key c) :: run rest pending ticks c
  | EvGetAll :: rest =>
      ObsGetAll (GetAll formatRFC3339 c) :: run rest pending ticks c
  end.

(** [obs] is what the read returns when it runs on the cache [c]. *)
Definition readsFrom (c : StatsCache) (obs : Observation) : Prop :=
  match obs with
  | ObsGet key found => found = Get key c
  | ObsGetAll all => all = GetAll formatRFC3339 c
  end.

(** [obs] was read from the cache as it stood after some number of the
    pending writes [ws], run from the cache [c] at clock reading [ticks]. *)
Definition readsAfterPrefix (ws : list CacheWrite) (ticks : nat)
    (c : StatsCache) (obs : Observation) : Prop :=
  exists k : nat, readsFrom (applyWrites clock (take k ws) ticks c) obs.

(** A [GetAll] result is torn between the snapshot [old] (before the
    refresh) and the snapshot [new] (after it) when one of its fields is the
    new cycle's and not the old one's while another is the old cycle's and not
    the new one's. *)
Definition torn (old new : StatsCache) (all : gmap string Value) : Prop :=
  exists k1 k2 : string,
    (all !! k1 = GetAll formatRFC3339 new !! k1 /\
     all !! k1 <> GetAll formatRFC3339 old !! k1) /\
    (all !! k2 = GetAll formatRFC3339 old !! k2 /\
     all !! k2 <> GetAll formatRFC3339 new !! k2).

(** Each read taken field by field: the value of a key is the one it has
    before the refresh or the one it has after it.  The synthesised
    [last_refreshed] is left out: every setter moves it. *)
Definition fieldwise (old new : StatsCache) (obs : Observation) : Prop :=
  match obs with
  | ObsGet key found => found = Get key old \/ found = Get key new
  | ObsGetAll all =>
      forall key : string, key <> "last_refreshed" ->
        all !! key = data old !! key \/ all !! key = data new !! key
  end.

End Run.

End Interleaving.

(** ** Concrete environments used to exercise the model *)

Module Scenario.
Import Cache UseCase.

(** 2024-01-01T00:00:00Z, counted from the zero [time.Time], and one more
    second for every later reading. *)
Definition sampleClock (n : nat) : Time :=
  ((63839664000 + Z.of_nat n) * 1000000000)%Z.

(** A stand-in for the RFC 3339 rendering that keeps the instant apart:
    the digits of its nanosecond count. *)
Definition sampleFormat (t : Time) : string := pretty t.

Definition fifteenMinutes : Duration := (15 * 60 * 1000000000)%Z.

Definition phone : Product := mkProduct 7 "Smartphone X".

Definition findPhone (id : N) : option Product * option Error :=
  if (id =? 7)%N then (Some phone, None)
  else if (id =? 8)%N then (None, Some "connection reset")
  else (None, None).

Definition electronics : Category := mkCategory 1 "Electronics" "Electronic devices and accessories".

(** A catalogue of 42 products whose product and category queries
    succeed. *)
Definition healthy : Deps :=
  mkDeps (mkProductRepository (fun _ => ([phone], 42%Z, None)) findPhone)
         (mkCategoryRepository ([electronics], None))
         fifteenMinutes sampleClock sampleFormat.

(** The same catalogue with the product listing failing. *)
Definition listingDown : Deps :=
  mkDeps (mkProductRepository (fun _ => ([], 0%Z, Some "database is down"))
            findPhone)
         (mkCategoryRepository ([electronics], None))
         fifteenMinutes sampleClock sampleFormat.

(** The use case right after [NewStatsUseCase], before any refresh. *)
Definition coldStart : State := mkState NewStatsCache zeroTime 0 [] [].

(** A cache whose category counts name the known category 1 and the
    unknown category 8. *)
Definition categorised : State :=
  mkState (SetCategoryCounts (<[1%N := 3%Z]> (<[8%N := 1%Z]> ∅)) 5%Z
             NewStatsCache)
          zeroTime 0 [] [].

(** A cache whose wishlist counts name product 7 (found), product 8 (its
    lookup fails) and product 9 (no such product). *)
Definition wishlisted : State :=
  mkState (SetWishlistCounts
             (<[7%N := 3%Z]> (<[8%N := 1%Z]> (<[9%N := 2%Z]> ∅))) 5%Z
             NewStatsCache)
          zeroTime 0 [] [].

(** What the tasks of the first refresh collect from the healthy
    catalogue. *)
Definition firstCollected : Collected := fst (collect healthy coldStart).

End Scenario.

(** ** The refresh loop ([startRefreshLoop]) *)

Module Scheduler.
Import Cache UseCase.

Section WithDeps.

Variable uc : Deps.

(** The body of [for range ticker.C]: one refresh, whose error is logged
    and dropped. *)
Definition onTick : M unit :=
  let* err := RefreshStats uc in
  match err with
  | Some e => writeLog (LogError e "Failed to refresh statistics")
  | None => ret tt
  end.

(** [startRefreshLoop] never returns; this is what it has done once its
    ticker has delivered [n] ticks. *)
Fixpoint startRefreshLoop (n : nat) : M unit :=
  match n with
  | 0 => ret tt
  | S n' => onTick ;;; startRefreshLoop n'
  end.

End WithDeps.

(** The scalar entries after a refresh that counted [count] products,
    over the entries [m] held before. *)
Definition refreshedData (count : Z) (m : gmap string Value)
    : gmap string Value :=
  <["top_products" := VTopProducts []]> (
  <["average_rating" := VFloat64 0]> (
  <["total_reviews" := VInt64 0]> (
  <["total_users" := VInt64 0]> (
  <["total_products" := VInt64 count]> m)))).

(** How many lines of the log report a failed tick with error [e]. *)
Definition failedTicks (e : Error) (s : State) : nat :=
  length (filter (fun entry => entry = LogError e "Failed to refresh statistics")
                 (log s)).

End Scheduler.

(** ** The HTTP handlers of the statistics ([StatsHandler]) *)

Module Handlers.
Import Cache UseCase.

(** What a handler passes to [c.JSON] as the body. *)
Inductive Body :=
| BodyError (msg : string)
| BodyMessage (msg : string)
| BodyStats (stats : gmap string Value)
| BodyCategories (stats : list CategoryStat)
| BodyWishlistStats (stats : list WishlistStat)
| BodyTopProducts (topProducts : list TopProduct).

Record Response := mkResponse {
  status : Z;
  body : Body
}.

Definition StatusOK : Z := 200.
Definition StatusInternalServerError : Z := 500.

Section WithDeps.

Variable uc : Deps.

(** The handlers log through the logger the use case logs through: the
    server is built with the one [logger.Logger] of [main]. *)
Definition GetStats : M Response :=
  let* r := UseCase.GetStats uc in
  match r with
  | Fail err =>
      writeLog (LogError err "Failed to get stats") ;;;
      ret (mkResponse StatusInternalServerError
             (BodyError "Failed to get stats"))
  | Ok stats => ret (mkResponse StatusOK (BodyStats stats))
  end.

Definition GetCategoryStats : M Response :=
  let* r := UseCase.GetCategoryStats uc in
  match r with
  | Fail err =>
      writeLog (LogError err "Failed to get category stats") ;;;
      ret (mkResponse StatusInternalServerError
             (BodyError "Failed to get category stats"))
  | Ok stats => ret (mkResponse StatusOK (BodyCategories stats))
  end.

Definition GetWishlistStats : M Response :=
  let* r := UseCase.GetWishlistStats uc in
  match r with
  | Fail err =>
      writeLog (LogError err "Failed to get wishlist stats") ;;;
      ret (mkResponse StatusInternalServerError
             (BodyError "Failed to get wishlist stats"))
  | Ok stats => ret (mkResponse StatusOK (BodyWishlistStats stats))
  end.

Definition GetTopProducts : M Response :=
  let* r := UseCase.GetTopProducts uc 5 in
  match r with
  | Fail err =>
      writeLog (LogError err "Failed to get top products") ;;;
      ret (mkResponse StatusInternalServerError
             (BodyError "Failed to get top products"))
  | Ok topProducts => ret (mkResponse StatusOK (BodyTopProducts topProducts))
  end.

Definition RefreshStats : M Response :=
  let* err := UseCase.RefreshStats uc in
  match err with
  | Some err =>
      writeLog (LogError err "Failed to refresh stats") ;;;
      ret (mkResponse StatusInternalServerError
             (BodyError "Failed to refresh stats"))
  | None =>
      ret (mkResponse StatusOK
             (BodyMessage "Statistics refreshed successfully"))
  end.

End WithDeps.

(** An endpoint answered [200] with the use case's result, or [500] with
    the fixed message [msg] after logging the use case's error under that
    message. *)
Definition answers {A} (wrap : A -> Body) (msg : string)
    (outcome : Result A * State) (reply : Response * State) : Prop :=
  match fst outcome with
  | Ok result =>
      reply = (mkResponse StatusOK (wrap result), snd outcome)
  | Fail e =>
      fst reply = mkResponse StatusInternalServerError (BodyError msg) /\
      log (snd reply) = log (snd outcome) ++ [LogError e msg] /\
      cache (snd reply) = cache (snd outcome)
  end.

End Handlers.

(** ** The WebSocket hub ([WebSocketHub]) *)

Module Hub.

(** A [*websocket.Conn], by identity. *)
Definition Conn := N.

(** [clients] is the hub's map.  [written] and [closed] are the side of
    the connections the hub acts on: the text messages handed to
    [conn.WriteMessage], in order, and the connections it has closed.  All
    methods hold [hub.mu] while they touch [clients]. *)
Record WebSocketHub := mkHub {
  clients : gmap Conn bool;
  written : gmap Conn (list string);
  closed : gset Conn
}.

Definition NewWebSocketHub : WebSocketHub :=
  {| clients := ∅; written := ∅; closed := ∅ |}.

(** The messages written to [conn] so far. *)
Definition messagesTo (conn : Conn) (hub : WebSocketHub) : list string :=
  default [] (written hub !! conn).

(** [conn.WriteMessage(websocket.TextMessage, message)]; the hub ignores
    the error it returns. *)
Definition WriteMessage (conn : Conn) (message : string)
    (w : gmap Conn (list string)) : gmap Conn (list string) :=
  <[conn := default [] (w !! conn) ++ [message]]> w.

(** [for conn := range hub.clients { conn.WriteMessage(...) }] *)
Definition Broadcast (message : string) (hub : WebSocketHub)
    : WebSocketHub :=
  {| clients := clients hub;
     written := map_fold (fun conn _ w => WriteMessage conn message w)
                         (written hub) (clients hub);
     closed := closed hub |}.

(** [HandleWS] up to the start of its goroutine: [upgrade] is the outcome
    of [upgrader.Upgrade]. *)
Definition HandleWS (upgrade : Result Conn) (hub : WebSocketHub)
    : WebSocketHub :=
  match upgrade with
  | Fail _ => hub
  | Ok conn =>
      {| clients := <[conn := true]> (clients hub);
         written := written hub;
         closed := closed hub |}
  end.

(** The deferred function of the goroutine of [HandleWS], run when
    [conn.NextReader] has failed. *)
Definition readerExit (conn : Conn) (hub : WebSocketHub) : WebSocketHub :=
  {| clients := delete conn (clients hub);
     written := written hub;
     closed := {[conn]} ∪ closed hub |}.

End Hub.

(** ** The product use case ([productUseCase]) *)

Module Products.

(** [entity.Product] and [entity.ProductFilter] in full.  Prices are
    [float64]. *)
Record Product := mkProduct {
  ID : N;
  Name : string;
  Description : string;
  Price : PrimFloat.float;
  StockQuantity : Z;
  Status : string;
  Categories : list Category;
  CreatedAt : Time;
  UpdatedAt : Time
}.

Record ProductFilter := mkProductFilter {
  Search : string;
  Page : Z;
  PageSize : Z;
  CategoryID : N;
  MinPrice : option PrimFloat.float;
  MaxPrice : option PrimFloat.float;
  SortBy : string;
  SortOrder : string
}.

(** The repositories behind the use case.  [Create] and [Update] receive
    a pointer: they return the product as they leave it. *)
Record Repos := mkRepos {
  repo_Create : Product -> Product * option Error;
  repo_List : ProductFilter -> list Product * Z * option Error;
  repo_FindByID : N -> option Product * option Error;
  repo_Update : Product -> Product * option Error;
  repo_Delete : N -> option Error;
  repo_FindByIDs : list N -> list Category * option Error
}.

(** The repository calls a use case method makes, in order. *)
Inductive Call :=
| CallCreate (product : Product)
| CallList (filter : ProductFilter)
| CallFindByID (id : N)
| CallUpdate (product : Product)
| CallDelete (id : N)
| CallFindByIDs (ids : list N).

Definition setCategories (categories : list Category) (p : Product)
    : Product :=
  mkProduct (ID p) (Name p) (Description p) (Price p) (StockQuantity p)
    (Status p) categories (CreatedAt p) (UpdatedAt p).

Definition setStatus (status : string) (p : Product) : Product :=
  mkProduct (ID p) (Name p) (Description p) (Price p) (StockQuantity p)
    status (Categories p) (CreatedAt p) (UpdatedAt p).

Definition setPage (page : Z) (f : ProductFilter) : ProductFilter :=
  mkProductFilter (Search f) page (PageSize f) (CategoryID f) (MinPrice f)
    (MaxPrice f) (SortBy f) (SortOrder f).

Definition setPageSize (pageSize : Z) (f : ProductFilter) : ProductFilter :=
  mkProductFilter (Search f) (Page f) pageSize (CategoryID f) (MinPrice f)
    (MaxPrice f) (SortBy f) (SortOrder f).

Definition validateProduct (product : Product) : option Error :=
  if decide (Name product = "") then
    Some "product name is required"
  else if PrimFloat.leb (Price product) PrimFloat.zero then
    Some "product price must be greater than zero"
  else if (StockQuantity product <? 0)%Z then
    Some "product stock quantity cannot be negative"
  else None.

Section WithRepos.

Variable uc : Repos.

(** The shared middle of [CreateProduct] and [UpdateProduct]: resolve the
    categories when some IDs are given.  Returns the product as updated, or
    the error to return, with the calls made. *)
Definition attachCategories (product : Product) (categoryIDs : list N)
    : Result Product * list Call :=
  if decide (0 < length categoryIDs) then
    let '(categories, err) := repo_FindByIDs uc categoryIDs in
    match err with
    | Some e => (Fail e, [CallFindByIDs categoryIDs])
    | None =>
        if decide (length categories <> length categoryIDs) then
          (Fail "one or more categories not found",
           [CallFindByIDs categoryIDs])
        else (Ok (setCategories categories product),
              [CallFindByIDs categoryIDs])
    end
  else (Ok product, []).

(** Each method returns what the Go method returns, the product behind the
    pointer argument as the method leaves it (where it takes one), and the
    repository calls it made. *)
Definition CreateProduct (product : Product) (categoryIDs : list N)
    : option Error * Product * list Call :=
  match validateProduct product with
  | Some e => (Some e, product, [])
  | None =>
      match attachCategories product categoryIDs with
      | (Fail e, calls) => (Some e, product, calls)
      | (Ok product, calls) =>
          let product :=
            if decide (Status product = "") then setStatus "active" product
            else product in
          let '(product', err) := repo_Create uc product in
          (err, product', calls ++ [CallCreate product])
      end
  end.

Definition ListProducts (filter : ProductFilter)
    : list Product * Z * option Error * list Call :=
  let filter :=
    if (Page filter <=? 0)%Z then setPage 1 filter else filter in
  let filter :=
    if ((PageSize filter <=? 0) || (100 <? PageSize filter))%Z
    then setPageSize 10 filter else filter in
  (repo_List uc filter, [CallList filter]).

Definition GetProduct (id : N)
    : option Product * option Error * list Call :=
  let '(product, err) := repo_FindByID uc id in
  match err with
  | Some e => (None, Some e, [CallFindByID id])
  | None =>
      match product with
      | None => (None, Some "product not found", [CallFindByID id])
      | Some p => (Some p, None, [CallFindByID id])
      end
  end.

Definition UpdateProduct (product : Product) (categoryIDs : list N)
    : option Error * Product * list Call :=
  let '(existingProduct, err) := repo_FindByID uc (ID product) in
  let found := [CallFindByID (ID product)] in
  match err with
  | Some e => (Some e, product, found)
  | None =>
      match existingProduct with
      | None => (Some "product not found", product, found)
      | Some _ =>
          match validateProduct product with
          | Some e => (Some e, product, found)
          | None =>
              match attachCategories product categoryIDs with
              | (Fail e, calls) => (Some e, product, found ++ calls)
              | (Ok product, calls) =>
                  let '(product', err) := repo_Update uc product in
                  (err, product', found ++ calls ++ [CallUpdate product])
              end
          end
      end
  end.

Definition DeleteProduct (id : N) : option Error * list Call :=
  let '(product, err) := repo_FindByID uc id in
  match err with
  | Some e => (Some e, [CallFindByID id])
  | None =>
      match product with
      | None => (Some "product not found", [CallFindByID id])
      | Some _ => (repo_Delete uc id, [CallFindByID id; CallDelete id])
      end
  end.

End WithRepos.

End Products.

(** ** Vocabulary for the read paths *)

Module ReadPaths.
Import Cache UseCase.

Section WithDeps.

Variable uc : Deps.

(** The line [GetWishlistStats] logs for one entry of the wishlist counts:
    one when the lookup of the product reports an error, none otherwise. *)
Definition lookupFailure (entry : N * Z) : option LogEntry :=
  match (product_FindByID (productRepo uc) entry.1).2 with
  | Some e =>
      Some (LogError e "Failed to get product details for wishlist stats")
  | None => None
  end.

End WithDeps.

End ReadPaths.

(** ** The product handler ([ProductHandler.GetProduct]) *)

Module ProductHandlers.
Import Products.

(** [dto.ProductResponse] *)
Record ProductResponse := mkProductResponse {
  r_ID : N;
  r_Name : string;
  r_Description : string;
  r_Price : PrimFloat.float;
  r_StockQuantity : Z;
  r_Status : string;
  r_Categories : list string;
  r_CreatedAt : string;
  r_UpdatedAt : string
}.

Inductive Body :=
| BodyError (msg : string)
| BodyProduct (response : ProductResponse).

(** The [c.JSON] call of a handler, the error lines it logged, and the
    repository calls made on its behalf. *)
Record Reply := mkReply {
  status : Z;
  body : Body;
  logged : list (Error * string);
  calls : list Call
}.

Section WithUseCase.

Variable uc : Repos.

(** [t.Format(time.RFC3339)] of the Go standard library. *)
Variable formatRFC3339 : Time -> string.

(** [dto.FromEntity]: the category names are appended in order. *)
Definition FromEntity (p : Product) : ProductResponse :=
  let categories :=
    foldl (fun names c => names ++ [cat_Name c]) [] (Categories p) in
  mkProductResponse (ID p) (Name p) (Description p) (Price p)
    (StockQuantity p) (Status p) categories
    (formatRFC3339 (CreatedAt p)) (formatRFC3339 (UpdatedAt p)).

(** [GetProduct], given the outcome of
    [strconv.ParseUint(c.Param("id"), 10, 32)]. *)
Definition GetProduct (parsed : Result N) : Reply :=
  match parsed with
  | Fail _ => mkReply 400 (BodyError "Invalid product ID") [] []
  | Ok id =>
      let '(product, err, made) := Products.GetProduct uc id in
      match err with
      | Some e =>
          mkReply 500 (BodyError "Failed to get product")
            [(e, "Failed to get product")] made
      | None =>
          match product with
          | None => mkReply 404 (BodyError "Product not found") [] made
          | Some p => mkReply 200 (BodyProduct (FromEntity p)) [] made
          end
      end
  end.

End WithUseCase.

End ProductHandlers.

(** ** Middleware ([ErrorHandler], [JWTAuthMiddleware], [IPRateLimiter]) *)

Module Middleware.

(** *** HandleErrors *)

(** What [HandleErrors] reads from the [gin.Context] once [c.Next()] has
    returned: the errors the handlers attached, whether a response has been
    written, the status held by the writer, and the request line. *)
Record Context := mkContext {
  Errors : list Error;
  Written : bool;
  WriterStatus : Z;
  Path : string;
  Method : string;
  ClientIP : string
}.

Record ErrorResponse := mkErrorResponse {
  er_Status : Z;
  er_Message : string;
  er_Error : string
}.

(** The [Request error] line with its fields. *)
Record ErrorLine := mkErrorLine {
  el_path : string;
  el_method : string;
  el_client_ip : string;
  el_error : Error
}.

(** The [switch status] that picks the message. *)
Definition messageFor (status : Z) (message : string) : string :=
  if (status =? 404)%Z then "Resource not found"
  else if (status =? 400)%Z then "Invalid request"
  else if (status =? 401)%Z then "Authentication required"
  else if (status =? 403)%Z then "Access denied"
  else if (status =? 429)%Z then "Rate limit exceeded"
  else message.

(** Returns the lines logged and the [c.JSON(status, response)] made, if
    any. *)
Definition HandleErrors (c : Context)
    : list ErrorLine * option (Z * ErrorResponse) :=
  if decide (0 < length (Errors c)) then
    let err := default "" (last (Errors c)) in
    let logged := [mkErrorLine (Path c) (Method c) (ClientIP c) err] in
    if Written c then (logged, None)
    else
      let status := 500%Z in
      let message := "Internal server error" in
      let errorMsg := err in
      let status :=
        if decide (WriterStatus c <> 200%Z) then WriterStatus c else status in
      let message := messageFor status message in
      (logged, Some (status, mkErrorResponse status message errorMsg))
  else ([], None).

(** *** AuthorizeRole *)

(** A value stored in the [gin.Context] by [Authenticate]: the [uint] user
    ID or a [string]. *)
Inductive KeyValue :=
| KUint (n : N)
| KString (s : string).

(** How the middleware ends: [c.Next()], [c.JSON(status, gin.H{"error":
    msg})] followed by [c.Abort()], or the panic of a failed type
    assertion. *)
Inductive Outcome :=
| Next
| Abort (status : Z) (msg : string)
| Panic.

(** The loop over [roles]. *)
Fixpoint matchRole (roleStr : string) (roles : list string) : bool :=
  match roles with
  | [] => false
  | role :: rest =>
      if decide (roleStr = role) then true else matchRole roleStr rest
  end.

Definition AuthorizeRole (roles : list string)
    (keys : gmap string KeyValue) : Outcome :=
  match keys !! "role" with
  | None => Abort 401 "User not authenticated"
  | Some (KString roleStr) =>
      if matchRole roleStr roles then Next
      else Abort 403 "User not authorized for this action"
  | Some (KUint _) => Panic
  end.

(** *** IPRateLimiter *)

(** A [*rate.Limiter]: its identity (the limiters are numbered in the
    order they are created) and the parameters it was created with. *)
Record Limiter := mkLimiter {
  lim_id : nat;
  lim_rate : PrimFloat.float;
  lim_burst : Z
}.

Record IPRateLimiter := mkIPRateLimiter {
  ips : gmap string Limiter;
  rate : PrimFloat.float;
  burst : Z;
  created : nat;
  info : list string
}.

Definition NewIPRateLimiter (r : PrimFloat.float) (b : Z) : IPRateLimiter :=
  mkIPRateLimiter ∅ r b 0 [].

(** [GetLimiter], run without another call in between: the method gives
    up the read lock before it takes the write lock, so two first lookups of
    one address that overlap are outside this function. *)
Definition GetLimiter (ip : string) (i : IPRateLimiter)
    : Limiter * IPRateLimiter :=
  match ips i !! ip with
  | Some limiter => (limiter, i)
  | None =>
      let limiter := mkLimiter (created i) (rate i) (burst i) in
      (limiter,
       mkIPRateLimiter (<[ip := limiter]> (ips i)) (rate i) (burst i)
         (S (created i)) (info i))
  end.

(** [cleanup] takes the lock, logs, and returns. *)
Definition cleanup (expiryDuration : Duration) (i : IPRateLimiter)
    : IPRateLimiter :=
  mkIPRateLimiter (ips i) (rate i) (burst i) (created i)
    (info i ++ ["Cleaning up stale rate limiters"]).

(** The calls made on a limiter pool over time: requests looking up their
    limiter, and ticks of the cleanup task. *)
Inductive PoolCall :=
| Lookup (ip : string)
| Cleanup (expiryDuration : Duration).

Definition poolStep (i : IPRateLimiter) (call : PoolCall) : IPRateLimiter :=
  match call with
  | Lookup ip => snd (GetLimiter ip i)
  | Cleanup expiryDuration => cleanup expiryDuration i
  end.

Definition poolRun (calls : list PoolCall) (i : IPRateLimiter)
    : IPRateLimiter :=
  foldl poolStep i calls.

(** The invariant behind distinct limiters: every registered limiter was
    numbered before the next one to be created, and two addresses never hold
    limiters with the same number. *)
Definition distinctLimiters (i : IPRateLimiter) : Prop :=
  (forall ip l, ips i !! ip = Some l -> lim_id l < created i) /\
  (forall ip1 ip2 l1 l2,
     ips i !! ip1 = Some l1 -> ips i !! ip2 = Some l2 ->
     lim_id l1 = lim_id l2 -> ip1 = ip2).

End Middleware.

(** ** The review hook of [internal/storage/postgres] *)

Module Models.

(** [(r *Review) BeforeCreate]: the rating as the hook leaves it. *)
Definition Review_BeforeCreate (rating : Z) : Z :=
  if (rating <? 1)%Z then 1%Z
  else if (5 <? rating)%Z then 5%Z
  else rating.

End Models.

(** ** Further concrete environments *)

Module Cases.
Import Cache UseCase Scenario.

Definition bestSeller : TopProduct := mkTopProduct 7 "Smartphone X" 10 "reviews".

(** Caches holding a top-products list, and a counter where the list should
    be. *)
Definition served : State :=
  mkState (Set_ "top_products" (VTopProducts [bestSeller]) 5%Z NewStatsCache)
          zeroTime 0 [] [].

Definition mistyped : State :=
  mkState (Set_ "top_products" (VInt64 3) 5%Z NewStatsCache)
          zeroTime 0 [] [].

(** The use case right after its first successful refresh. *)
Definition justRefreshed : State := snd (RefreshStats healthy coldStart).

(** The healthy catalogue with the category listing failing, and with two
    categories sharing the ID 1. *)
Definition categoriesDown : Deps :=
  mkDeps (productRepo healthy)
         (mkCategoryRepository ([], Some "relation does not exist"))
         fifteenMinutes sampleClock sampleFormat.

Definition gadgets : Category := mkCategory 1 "Gadgets" "Small devices".

Definition twoNames : Deps :=
  mkDeps (productRepo healthy)
         (mkCategoryRepository ([electronics; gadgets], None))
         fifteenMinutes sampleClock sampleFormat.

(** A product repository for the product use case: product 7 exists,
    looking up product 8 fails, every list of category IDs resolves to the
    one category 1. *)
Definition widget : Products.Product :=
  Products.mkProduct 7 "Widget" "A widget" PrimFloat.two 3 "" [] 0%Z 0%Z.

Definition freeWidget : Products.Product :=
  Products.mkProduct 7 "Widget" "A widget" PrimFloat.zero 3 "" [] 0%Z 0%Z.

Definition shop : Products.Repos :=
  Products.mkRepos
    (fun p => (p, None))
    (fun _ => ([widget], 1%Z, None))
    (fun id => if (id =? 7)%N then (Some widget, None)
               else if (id =? 8)%N then (None, Some "connection reset")
               else (None, None))
    (fun p => (p, None))
    (fun _ => None)
    (fun _ => ([electronics], None)).

(** A limiter pool of two requests per second with a burst of five, the
    calls of an afternoon, and the first limiter the pool creates. *)
Definition emptyPool : Middleware.IPRateLimiter :=
  Middleware.NewIPRateLimiter PrimFloat.two 5.

Definition afternoon : list Middleware.PoolCall :=
  [ Middleware.Lookup "10.0.0.1"; Middleware.Cleanup fifteenMinutes;
    Middleware.Lookup "10.0.0.2"; Middleware.Lookup "10.0.0.1";
    Middleware.Cleanup fifteenMinutes ].

Definition firstLimiter : Middleware.Limiter :=
  Middleware.mkLimiter 0 PrimFloat.two 5.

Definition secondLimiter : Middleware.Limiter :=
  Middleware.mkLimiter 1 PrimFloat.two 5.

End Cases.

(** * Properties *)

(** ** The cache on its own *)

Section CacheFacts.
Import Cache.

Lemma copy_map_empty `{Countable K} {V} : copy_map (∅ : gmap K V) = ∅.
Proof. unfold copy_map. apply map_fold_empty. Qed.

(** The copy loop rebuilds the map it ranges over. *)
Lemma copy_map_id `{Countable K} {V} (m : gmap K V) : copy_map m = m.
Proof.
  unfold copy_map.
  apply (map_fold_weak_ind (fun dst src => dst = src)).
  - reflexivity.
  - intros k v src dst _ ->. reflexivity.
Qed.

Lemma GetAll_lookup_metric fmt (c : StatsCache) (key : string) :
  key <> "last_refreshed" -> GetAll fmt c !! key = data c !! key.
Proof.
  intros Hkey. unfold GetAll. rewrite copy_map_id.
  rewrite lookup_insert_ne; [reflexivity | congruence].
Qed.

Lemma GetAll_lookup_last_refreshed fmt (c : StatsCache) :
  GetAll fmt c !! "last_refreshed" = Some (VString (fmt (lastRefreshed c))).
Proof. unfold GetAll. apply lookup_insert_eq. Qed.

(** C9. Replacing a count map wholesale and reading it back returns the
    mapping that was passed in: [GetCategoryCounts] after
    [SetCategoryCounts m] is [m], and [GetWishlistCounts] after
    [SetWishlistCounts m] is [m], whatever the cache held and whenever the
    call was made. *)
Theorem count_maps_round_trip (m : gmap N Z) (now : Time) (c : StatsCache) :
  GetCategoryCounts (SetCategoryCounts m now c) = m /\
  GetWishlistCounts (SetWishlistCounts m now c) = m.
Proof.
  unfold GetCategoryCounts, GetWishlistCounts, SetCategoryCounts,
    SetWishlistCounts; cbn [categoryCounts wishlistCounts].
  rewrite !copy_map_id. split; reflexivity.
Qed.

End CacheFacts.

(** ** Running the method bodies *)

Section UseCaseFacts.
Import Cache UseCase.

Variable uc : Deps.

(** C8. In every state, [Clear()] followed at once by [GetAll()] yields the
    mapping whose only entry is the synthesised [last_refreshed], rendered
    from the clock reading that [Clear] made. *)
Theorem Clear_then_GetAll (s : State) :
  fst ((cacheClear uc ;;; cacheGetAll uc) s) =
    {[ "last_refreshed" := VString (formatRFC3339 uc (clock uc (ticks s))) ]}.
Proof.
  unfold bind, cacheClear, cacheGetAll, bind, ret, timeNow, modifyCache,
    getCache; cbn.
  unfold GetAll, Clear; cbn [data lastRefreshed].
  rewrite copy_map_empty. apply insert_empty.
Qed.

(** *** What one refresh collects *)

Lemma collect_ok (s : State) (count : Z) :
  (listing uc).2 = None -> (listing uc).1.2 = count ->
  collect uc s = (collectedOk count, s).
Proof.
  unfold listing, collect, productCountTask, bind.
  destruct (product_List _ _) as [[l n] err]; cbn.
  intros -> ->. reflexivity.
Qed.

Lemma collect_failed (s : State) (count : Z) (e : Error) :
  (listing uc).2 = Some e -> (listing uc).1.2 = count ->
  collect uc s =
    (collectedFailed count e,
     snd (writeLog (LogError e "Failed to count products") s)).
Proof.
  unfold listing, collect, productCountTask, bind.
  destruct (product_List _ _) as [[l n] err]; cbn.
  intros -> ->. reflexivity.
Qed.

Lemma checkErrors_head (v : Collected) :
  checkErrors v = head (reportedErrors v).
Proof.
  unfold checkErrors, reportedErrors.
  destruct v as [? ? ? ? ? ? ? e1 e2 e3 e4 e5 e6 e7]; cbn.
  destruct e1, e2, e3, e4, e5, e6, e7; reflexivity.
Qed.

(** With an error collected, everything after [wg.Wait()] is the early
    return: the state is not touched. *)
Lemma afterWait_error (v : Collected) (s : State) (e : Error) :
  checkErrors v = Some e -> afterWait uc v s = (Some e, s).
Proof. intros He. unfold afterWait. rewrite He. reflexivity. Qed.

(** The tasks never touch the cache. *)
Lemma collect_cache (s : State) :
  cache (snd (collect uc s)) = cache s /\
  lastRefresh (snd (collect uc s)) = lastRefresh s /\
  ticks (snd (collect uc s)) = ticks s /\
  broadcasts (snd (collect uc s)) = broadcasts s.
Proof.
  unfold collect, productCountTask, bind.
  destruct (product_List _ _) as [[l n] [e|]]; cbn; repeat split.
Qed.

(** C1. When at least one task of a refresh cycle has reported an error,
    [RefreshStats] returns the first reported error in checking order and
    leaves the cache exactly as it was: the scalar entries, both count maps
    and [lastRefreshed] are those from before the call, and so are
    [uc.lastRefresh] and the list of broadcasts. *)
Theorem RefreshStats_error_writes_nothing (s : State) (v : Collected)
    (s1 : State) :
  collect uc (snd (writeLog (LogInfo "Refreshing statistics") s)) = (v, s1) ->
  reportedErrors v <> [] ->
  exists e : Error,
    head (reportedErrors v) = Some e /\
    RefreshStats uc s = (Some e, s1) /\
    data (cache s1) = data (cache s) /\
    categoryCounts (cache s1) = categoryCounts (cache s) /\
    wishlistCounts (cache s1) = wishlistCounts (cache s) /\
    lastRefreshed (cache s1) = lastRefreshed (cache s) /\
    lastRefresh s1 = lastRefresh s /\
    broadcasts s1 = broadcasts s.
Proof.
  intros Hcollect Herr.
  destruct (head (reportedErrors v)) as [e|] eqn:Hhead.
  2: { destruct (reportedErrors v); [congruence | discriminate]. }
  exists e. split; [reflexivity |].
  assert (Hs1 : s1 = snd (collect uc (snd (writeLog (LogInfo "Refreshing statistics") s))))
    by (rewrite Hcollect; reflexivity).
  split.
  - unfold RefreshStats, bind. cbn. cbn in Hcollect. rewrite Hcollect.
    apply afterWait_error. rewrite checkErrors_head. exact Hhead.
  - destruct (collect_cache (snd (writeLog (LogInfo "Refreshing statistics") s)))
      as (Hc & Hl & _ & Hb).
    rewrite <- Hs1 in Hc, Hl, Hb. cbn in Hc, Hl, Hb.
    rewrite Hc, Hl, Hb. repeat split.
Qed.

(** *** The two outcomes of [RefreshStats] *)

Lemma RefreshStats_failure (s : State) (e : Error) :
  (listing uc).2 = Some e ->
  RefreshStats uc s =
    (Some e,
     mkState (cache s) (lastRefresh s) (ticks s)
       ((log s ++ [LogInfo "Refreshing statistics"])
          ++ [LogError e "Failed to count products"])
       (broadcasts s)).
Proof.
  intros He. unfold RefreshStats, bind; cbn.
  rewrite (collect_failed _ (listing uc).1.2 e He eq_refl); cbn.
  reflexivity.
Qed.

Lemma RefreshStats_success (s : State) (count : Z) :
  (listing uc).2 = None -> (listing uc).1.2 = count ->
  RefreshStats uc s =
    (None,
     mkState
       (Interleaving.applyWrites (clock uc)
          (Interleaving.refreshWrites (collectedOk count)) (ticks s) (cache s))
       (clock uc (7 + ticks s)) (8 + ticks s)
       ((log s ++ [LogInfo "Refreshing statistics"])
          ++ [LogInfo "Statistics refreshed"])
       (broadcasts s ++ [statsUpdatePayload])).
Proof.
  intros He Hn. unfold RefreshStats, bind; cbn.
  rewrite (collect_ok _ count He Hn); cbn.
  reflexivity.
Qed.

(** The cache calls of [afterWait] are the steps the interleaving model
    schedules, taken back to back. *)
Lemma afterWait_cache (v : Collected) (s : State) :
  cache (snd (afterWait uc v s)) =
    Interleaving.applyWrites (clock uc) (Interleaving.refreshSteps v)
      (ticks s) (cache s).
Proof.
  unfold afterWait, Interleaving.refreshSteps.
  destruct (checkErrors v); reflexivity.
Qed.

(** Whether a refresh fails is decided by the product listing alone. *)
Lemma RefreshStats_result (s : State) :
  fst (RefreshStats uc s) = (listing uc).2.
Proof.
  destruct (listing uc).2 as [e|] eqn:He.
  - rewrite (RefreshStats_failure s e He). reflexivity.
  - rewrite (RefreshStats_success s _ He eq_refl). reflexivity.
Qed.

(** The cache a successful refresh leaves behind. *)
Lemma refreshed_data (count : Z) (t : nat) (c : StatsCache) :
  data (Interleaving.applyWrites (clock uc)
          (Interleaving.refreshWrites (collectedOk count)) t c) =
    <["top_products" := VTopProducts []]> (
    <["average_rating" := VFloat64 0]> (
    <["total_reviews" := VInt64 0]> (
    <["total_users" := VInt64 0]> (
    <["total_products" := VInt64 count]> (data c))))).
Proof. reflexivity. Qed.

Lemma refreshed_counts (count : Z) (t : nat) (c : StatsCache) :
  let c' := Interleaving.applyWrites (clock uc)
              (Interleaving.refreshWrites (collectedOk count)) t c in
  categoryCounts c' = ∅ /\ wishlistCounts c' = ∅ /\
  lastRefreshed c' = clock uc (6 + t).
Proof. cbn. rewrite !copy_map_empty. repeat split. Qed.

Lemma refreshed_top_products (count : Z) (t : nat) (c : StatsCache) :
  Get "top_products"
    (Interleaving.applyWrites (clock uc)
       (Interleaving.refreshWrites (collectedOk count)) t c) =
  Some (VTopProducts []).
Proof. unfold Get. rewrite refreshed_data. apply lookup_insert_eq. Qed.

(** Every call of [RefreshStats] is one more attempt in the log. *)
Lemma RefreshStats_attempts (s : State) :
  refreshAttempts (snd (RefreshStats uc s)) = S (refreshAttempts s).
Proof.
  destruct (listing uc).2 as [e|] eqn:He.
  - rewrite (RefreshStats_failure s e He).
    unfold refreshAttempts; cbn. rewrite !filter_app, !length_app; cbn.
    repeat case_decide; try discriminate; try congruence; cbn; lia.
  - rewrite (RefreshStats_success s _ He eq_refl).
    unfold refreshAttempts; cbn. rewrite !filter_app, !length_app; cbn.
    repeat case_decide; try discriminate; try congruence; cbn; lia.
Qed.

(** *** GetTopProducts *)

Lemma cachedTopProducts_eq (s : State) :
  cachedTopProducts s =
    (match Get "top_products" (cache s) with
     | Some value => asTopProducts value
     | None => None
     end, s).
Proof.
  unfold cachedTopProducts, cacheGet, getCache, bind, ret; cbn.
  destruct (Get "top_products" (cache s)); reflexivity.
Qed.

Lemma GetTopProducts_miss (s : State) (limit : Z) :
  fst (cachedTopProducts s) = None ->
  GetTopProducts uc limit s =
    match (listing uc).2 with
    | Some e => (Fail e, snd (RefreshStats uc s))
    | None => (Ok [], snd (RefreshStats uc s))
    end.
Proof.
  intros Hmiss. unfold GetTopProducts, bind at 1.
  rewrite cachedTopProducts_eq in *. cbn in Hmiss. rewrite Hmiss.
  unfold bind at 1.
  destruct (listing uc).2 as [e|] eqn:He.
  - rewrite (RefreshStats_failure s e He). reflexivity.
  - rewrite (RefreshStats_success s _ He eq_refl).
    unfold bind. rewrite cachedTopProducts_eq. cbn [cache].
    rewrite refreshed_top_products. reflexivity.
Qed.

(** C3, as the code has it. When the cache has no [top_products] entry,
    [GetTopProducts] makes exactly one refresh attempt; if that attempt
    fails the call returns its error, and otherwise it returns an empty
    list and no error. *)
Theorem GetTopProducts_cold (s : State) (limit : Z) :
  Get "top_products" (cache s) = None ->
  refreshAttempts (snd (GetTopProducts uc limit s)) = S (refreshAttempts s) /\
  match fst (RefreshStats uc s) with
  | Some e => fst (GetTopProducts uc limit s) = Fail e
  | None => fst (GetTopProducts uc limit s) = Ok []
  end.
Proof.
  intros Hcold.
  assert (Hmiss : fst (cachedTopProducts s) = None)
    by (rewrite cachedTopProducts_eq; cbn; rewrite Hcold; reflexivity).
  rewrite (GetTopProducts_miss s limit Hmiss), RefreshStats_result.
  destruct (listing uc).2 as [e|]; cbn [fst snd];
    (split; [apply RefreshStats_attempts | reflexivity]).
Qed.

(** C10. The [limit] argument has no effect: two calls in the same state
    with different limits return the same result and leave the same state,
    and a cached list is returned whole. *)
Theorem GetTopProducts_ignores_limit (s : State) (l1 l2 : Z) :
  GetTopProducts uc l1 s = GetTopProducts uc l2 s /\
  match Get "top_products" (cache s) with
  | Some (VTopProducts cached) => fst (GetTopProducts uc l1 s) = Ok cached
  | _ => True
  end.
Proof.
  split; [reflexivity |].
  destruct (Get "top_products" (cache s)) as [[]|] eqn:Hget; try exact I.
  unfold GetTopProducts, bind. rewrite cachedTopProducts_eq, Hget.
  reflexivity.
Qed.

(** *** The other read paths when the refresh they trigger fails *)

Lemma GetStats_stale (s : State) :
  (refreshTimeout uc <? Time_Sub (clock uc (ticks s)) (lastRefresh s))%Z = true ->
  GetStats uc s =
    let s1 := snd (timeNow uc s) in
    match (listing uc).2 with
    | Some e => (Fail e, snd (RefreshStats uc s1))
    | None =>
        (Ok (GetAll (formatRFC3339 uc) (cache (snd (RefreshStats uc s1)))),
         snd (RefreshStats uc s1))
    end.
Proof.
  intros Hstale. unfold GetStats, bind, getLastRefresh, timeSince, bind, ret.
  cbn [timeNow]. rewrite Hstale. cbn [snd].
  destruct (listing uc).2 as [e|] eqn:He.
  - rewrite !(RefreshStats_failure _ e He). reflexivity.
  - rewrite !(RefreshStats_success _ _ He eq_refl). reflexivity.
Qed.

Lemma GetCategoryStats_refresh_fails (s : State) (e : Error) :
  categoryCounts (cache s) = ∅ -> (listing uc).2 = Some e ->
  GetCategoryStats uc s = (Fail e, snd (RefreshStats uc s)).
Proof.
  intros Hempty He.
  unfold GetCategoryStats, bind, cacheGetCategoryCounts, getCache, bind, ret.
  unfold GetCategoryCounts. rewrite copy_map_id, Hempty.
  rewrite decide_True by apply map_size_empty.
  rewrite (RefreshStats_failure s e He). reflexivity.
Qed.

Lemma GetWishlistStats_refresh_fails (s : State) (e : Error) :
  wishlistCounts (cache s) = ∅ -> (listing uc).2 = Some e ->
  GetWishlistStats uc s = (Fail e, snd (RefreshStats uc s)).
Proof.
  intros Hempty He.
  unfold GetWishlistStats, bind, cacheGetWishlistCounts, getCache, bind, ret.
  unfold GetWishlistCounts. rewrite copy_map_id, Hempty.
  rewrite decide_True by apply map_size_empty.
  rewrite (RefreshStats_failure s e He). reflexivity.
Qed.

(** C4, as the code has it. A read path that triggers a refresh
    ([GetStats] when [uc.lastRefresh] is older than [refreshTimeout],
    [GetCategoryStats] and [GetWishlistStats] when the cached count map is
    empty) returns the error of that refresh, and no data, when the refresh
    fails. *)
Theorem read_paths_return_refresh_error (s : State) (e : Error) :
  fst (RefreshStats uc s) = Some e ->
  ((refreshTimeout uc < Time_Sub (clock uc (ticks s)) (lastRefresh s))%Z ->
     fst (GetStats uc s) = Fail e) /\
  (categoryCounts (cache s) = ∅ -> fst (GetCategoryStats uc s) = Fail e) /\
  (wishlistCounts (cache s) = ∅ -> fst (GetWishlistStats uc s) = Fail e).
Proof.
  rewrite RefreshStats_result. intros He. repeat split.
  - intros Hstale. apply Z.ltb_lt in Hstale.
    rewrite (GetStats_stale s Hstale). cbn zeta. rewrite He. reflexivity.
  - intros Hempty. rewrite (GetCategoryStats_refresh_fails s e Hempty He).
    reflexivity.
  - intros Hempty. rewrite (GetWishlistStats_refresh_fails s e Hempty He).
    reflexivity.
Qed.

(** *** A successful refresh, then reads *)


(** *** GetCategoryStats *)

Lemma resolveName_no_match (categories : list Category) (id : N)
    (categoryName : string) :
  (forall cat, cat ∈ categories -> cat_ID cat <> id) ->
  resolveName categories id categoryName = categoryName.
Proof.
  induction categories as [|cat rest IH]; intros Hnone; [reflexivity |].
  cbn. destruct (N.eqb_spec (cat_ID cat) id) as [Heq|_].
  - exfalso. apply (Hnone cat); [left | exact Heq].
  - apply IH. intros c Hc. apply Hnone. right. exact Hc.
Qed.

Lemma categoryStatsLoop_fmap (categories : list Category)
    (entries : list (N * Z)) :
  categoryStatsLoop categories entries = namedStat categories <$> entries.
Proof.
  unfold categoryStatsLoop.
  enough (Hgen : forall acc,
    foldl (fun stats '(id, count) =>
             stats ++ [mkCategoryStat id
                         (resolveName categories id "Unknown") count])
          acc entries = acc ++ (namedStat categories <$> entries))
    by apply (Hgen []).
  induction entries as [|[id count] rest IH]; intros acc; cbn.
  - symmetry. apply app_nil_r.
  - rewrite IH, <- app_assoc. reflexivity.
Qed.

Lemma GetCategoryStats_cached (s : State) (categories : list Category) :
  categoryCounts (cache s) <> ∅ ->
  category_List (categoryRepo uc) = (categories, None) ->
  GetCategoryStats uc s =
    (Ok (namedStat categories <$> map_to_list (categoryCounts (cache s))), s).
Proof.
  intros Hne Hcats.
  unfold GetCategoryStats, bind, cacheGetCategoryCounts, getCache, bind, ret.
  unfold GetCategoryCounts. rewrite copy_map_id.
  rewrite decide_False by (apply map_size_non_empty_iff; exact Hne).
  rewrite Hcats. unfold ret. rewrite categoryStatsLoop_fmap. reflexivity.
Qed.

(** C6. An entry of the cached category counts whose ID matches no
    category returned by the category repository appears in the result of
    [GetCategoryStats] under the name [Unknown], with its count, and the
    call returns no error. *)
Theorem GetCategoryStats_unknown_category (s : State) (id : N) (count : Z)
    (categories : list Category) :
  categoryCounts (cache s) !! id = Some count ->
  category_List (categoryRepo uc) = (categories, None) ->
  (forall cat, cat ∈ categories -> cat_ID cat <> id) ->
  exists stats : list CategoryStat,
    fst (GetCategoryStats uc s) = Ok stats /\
    mkCategoryStat id "Unknown" count ∈ stats.
Proof.
  intros Hentry Hcats Hnone.
  assert (Hne : categoryCounts (cache s) <> ∅).
  { intros Hempty. rewrite Hempty in Hentry.
    exact (lookup_empty_Some _ _ Hentry). }
  rewrite (GetCategoryStats_cached s categories Hne Hcats).
  eexists. split; [reflexivity |].
  apply list_elem_of_fmap. exists (id, count). split.
  - unfold namedStat; cbn.
    rewrite (resolveName_no_match categories id "Unknown" Hnone). reflexivity.
  - apply elem_of_map_to_list. exact Hentry.
Qed.

(** *** GetWishlistStats *)

Lemma wishlistWorker_result (id : N) (count : Z) (stats : list WishlistStat)
    (s : State) :
  fst (wishlistWorker uc id count stats s) =
    stats ++ option_list (foundStat uc (id, count)).
Proof.
  unfold wishlistWorker, foundStat; cbn [fst snd].
  destruct (product_FindByID (productRepo uc) id) as [[p|] [e|]]; cbn;
    rewrite ?app_nil_r; reflexivity.
Qed.

Lemma wishlistWorkers_result (entries : list (N * Z))
    (stats : list WishlistStat) (s : State) :
  fst (wishlistWorkers uc entries stats s) =
    stats ++ omap (foundStat uc) entries.
Proof.
  revert stats s.
  induction entries as [|[id count] rest IH]; intros stats s; cbn.
  - symmetry. apply app_nil_r.
  - unfold bind.
    pose proof (wishlistWorker_result id count stats s) as Hw.
    destruct (wishlistWorker uc id count stats s) as [stats' s'].
    cbn in Hw. subst stats'. rewrite IH, <- app_assoc. f_equal.
    destruct (foundStat uc (id, count)); reflexivity.
Qed.

(** The workers only add lines to the log. *)
Lemma wishlistWorkers_cache (entries : list (N * Z))
    (stats : list WishlistStat) (s : State) :
  cache (snd (wishlistWorkers uc entries stats s)) = cache s.
Proof.
  revert stats s.
  induction entries as [|[id count] rest IH]; intros stats s; cbn;
    [reflexivity |].
  unfold bind, wishlistWorker.
  destruct (product_FindByID (productRepo uc) id) as [[p|] [e|]]; cbn;
    rewrite IH; reflexivity.
Qed.

Lemma foundStat_ids (entries : list (N * Z)) :
  sublist (ws_ProductID <$> omap (foundStat uc) entries) (entries.*1).
Proof.
  induction entries as [|[id count] rest IH]; cbn; [constructor |].
  unfold foundStat at 1; cbn [fst snd].
  destruct (product_FindByID (productRepo uc) id) as [[p|] [e|]]; cbn;
    solve [ apply sublist_skip; exact IH | apply sublist_cons; exact IH ].
Qed.

Lemma GetWishlistStats_result (s : State) :
  (wishlistCounts (cache s) = ∅ -> fst (RefreshStats uc s) = None) ->
  fst (GetWishlistStats uc s) =
    Ok (omap (foundStat uc) (map_to_list (wishlistCounts (cache s)))).
Proof.
  intros Hrefresh.
  unfold GetWishlistStats, bind at 1.
  unfold cacheGetWishlistCounts, getCache, bind at 1, ret.
  unfold GetWishlistCounts. rewrite copy_map_id.
  destruct (decide (size (wishlistCounts (cache s)) = 0)) as [Hsize|Hsize].
  - apply map_size_empty_iff in Hsize.
    specialize (Hrefresh Hsize). rewrite RefreshStats_result in Hrefresh.
    unfold bind at 1.
    rewrite (RefreshStats_success s _ Hrefresh eq_refl).
    unfold bind at 1; cbn [cache].
    destruct (refreshed_counts (listing uc).1.2 (ticks s) (cache s))
      as (_ & Hw & _).
    cbv zeta in Hw. unfold bind; cbn [cache].
    rewrite copy_map_id, Hw, Hsize, map_to_list_empty. reflexivity.
  - unfold bind.
    pose proof (wishlistWorkers_result
                  (map_to_list (wishlistCounts (cache s))) [] s) as Hw.
    destruct (wishlistWorkers _ _ _ s) as [stats s']. cbn in Hw.
    subst stats. reflexivity.
Qed.

(** C7. Whatever the cached wishlist counts are, [GetWishlistStats]
    returns no error on account of the individual lookups: its result holds
    exactly one [{productID, productName, count}] entry for every product of
    the map whose lookup reports no error and a product, and no entry for a
    product whose lookup reports an error or no product.  (When the map is
    empty the call first refreshes; that refresh is taken to succeed.) *)
Theorem GetWishlistStats_skips_failed_lookups (s : State) :
  (wishlistCounts (cache s) = ∅ -> fst (RefreshStats uc s) = None) ->
  exists stats : list WishlistStat,
    fst (GetWishlistStats uc s) = Ok stats /\
    (forall stat : WishlistStat,
       stat ∈ stats <->
       exists (id : N) (count : Z) (p : Product),
         wishlistCounts (cache s) !! id = Some count /\
         product_FindByID (productRepo uc) id = (Some p, None) /\
         stat = mkWishlistStat id (prod_Name p) count) /\
    NoDup (ws_ProductID <$> stats).
Proof.
  intros Hrefresh.
  exists (omap (foundStat uc) (map_to_list (wishlistCounts (cache s)))).
  split; [apply GetWishlistStats_result; exact Hrefresh |]. split.
  - intros stat. rewrite list_elem_of_omap. split.
    + intros ([id count] & Hin & Hfound).
      apply elem_of_map_to_list in Hin.
      unfold foundStat in Hfound; cbn [fst snd] in Hfound.
      destruct (product_FindByID (productRepo uc) id) as [[p|] [e|]]
        eqn:Hfind; try discriminate.
      injection Hfound as <-.
      exists id, count, p. split; [exact Hin | split; [exact Hfind | reflexivity]].
    + intros (id & count & p & Hin & Hfind & ->).
      exists (id, count). split; [apply elem_of_map_to_list; exact Hin |].
      unfold foundStat; cbn [fst snd]. rewrite Hfind. reflexivity.
  - apply (sublist_NoDup _ _
             (NoDup_fst_map_to_list (wishlistCounts (cache s)))),
      foundStat_ids.
Qed.

End UseCaseFacts.

(** ** Readers racing one refresh *)

Section InterleavingFacts.
Import Cache UseCase Interleaving.

Variable clock : nat -> Time.
Variable formatRFC3339 : Time -> string.

(** Every read sees the cache between two cache calls of the refresh,
    never inside one. *)
Lemma run_reads_after_prefix (sched : list Event) (ws : list CacheWrite)
    (ticks : nat) (c : StatsCache) :
  Forall (readsAfterPrefix clock formatRFC3339 ws ticks c)
         (run clock formatRFC3339 sched ws ticks c).
Proof.
  revert ws ticks c.
  induction sched as [|ev rest IH]; intros ws ticks c; cbn; [constructor |].
  destruct ev as [|key|].
  - destruct ws as [|wr ws']; [apply IH |].
    eapply Forall_impl; [apply IH |].
    intros obs [k Hk]. exists (S k). exact Hk.
  - constructor; [| apply IH]. exists 0. reflexivity.
  - constructor; [| apply IH]. exists 0. reflexivity.
Qed.

(** Lookups through a stack of inserts at known keys. *)
Ltac settle_lookups :=
  repeat first
    [ rewrite lookup_insert_eq
    | rewrite lookup_insert_ne by (congruence || discriminate) ];
  auto.

(** The five keys a refresh stores are pairwise distinct, so after any
    number of its cache calls each key holds its old or its new value. *)
Lemma refresh_prefix_fieldwise (v : Collected) (k ticks : nat)
    (c : StatsCache) (key : string) :
  let new := applyWrites clock (refreshSteps v) ticks c in
  let mid := applyWrites clock (take k (refreshSteps v)) ticks c in
  data mid !! key = data c !! key \/ data mid !! key = data new !! key.
Proof.
  unfold refreshSteps. destruct (checkErrors v).
  { destruct k; left; reflexivity. }
  do 8 (try destruct k as [|k]); cbn; auto;
    (destruct (decide (key = "total_products")) as [->|]; [settle_lookups |]);
    (destruct (decide (key = "total_users")) as [->|]; [settle_lookups |]);
    (destruct (decide (key = "total_reviews")) as [->|]; [settle_lookups |]);
    (destruct (decide (key = "average_rating")) as [->|]; [settle_lookups |]);
    (destruct (decide (key = "top_products")) as [->|]; [settle_lookups |]);
    settle_lookups.
Qed.

(** C2, as the code has it. In every interleaving of [Get] and [GetAll]
    calls with one execution of [RefreshStats], each read is atomic with
    respect to each single cache call of the refresh: every [Get(key)], and
    every metric entry of every [GetAll], carries the value its key has
    either before or after the refresh.  (The entries of one [GetAll] need
    not all come from the same side.) *)
Theorem reads_are_fieldwise_consistent (v : Collected) (sched : list Event)
    (ticks : nat) (c : StatsCache) :
  Forall (fieldwise c (applyWrites clock (refreshSteps v) ticks c))
         (run clock formatRFC3339 sched (refreshSteps v) ticks c).
Proof.
  eapply Forall_impl; [apply run_reads_after_prefix |].
  intros [key found|all] [k Hk]; cbn in Hk; subst; cbn.
  - unfold Get. apply refresh_prefix_fieldwise.
  - intros key Hkey. rewrite GetAll_lookup_metric by exact Hkey.
    apply refresh_prefix_fieldwise.
Qed.

End InterleavingFacts.

(** ** The properties at work on concrete runs *)

Section Runs.
Import Cache UseCase Interleaving Scenario.

Lemma RefreshStats_error_writes_nothing_witness :
  exists e : Error,
    head (reportedErrors (collectedFailed 0 "database is down")) = Some e /\
    RefreshStats listingDown coldStart =
      (Some e,
       mkState NewStatsCache zeroTime 0
         [LogInfo "Refreshing statistics";
          LogError "database is down" "Failed to count products"] []) /\
    data NewStatsCache = data (cache coldStart) /\
    categoryCounts NewStatsCache = categoryCounts (cache coldStart) /\
    wishlistCounts NewStatsCache = wishlistCounts (cache coldStart) /\
    lastRefreshed NewStatsCache = lastRefreshed (cache coldStart) /\
    zeroTime = lastRefresh coldStart /\
    @nil string = broadcasts coldStart.
Proof.
  apply (RefreshStats_error_writes_nothing listingDown coldStart
           (collectedFailed 0 "database is down")
           (mkState NewStatsCache zeroTime 0
              [LogInfo "Refreshing statistics";
               LogError "database is down" "Failed to count products"] [])).
  - reflexivity.
  - discriminate.
Defined.

(** C2 as stated fails. On a cold start, a [GetAll] scheduled between the
    first and the second cache call of the refresh returns [total_products]
    as the refresh stored it together with no [total_users] entry, as before
    the refresh. *)
Lemma cold_start_read_is_torn :
  let old := NewStatsCache in
  let new := applyWrites sampleClock (refreshSteps firstCollected) 0 old in
  exists all : gmap string Value,
    run sampleClock sampleFormat [EvRefreshWrite; EvGetAll]
        (refreshSteps firstCollected) 0 old = [ObsGetAll all] /\
    all !! "total_products" = Some (VInt64 42) /\
    all !! "total_users" = None /\
    torn sampleFormat old new all.
Proof.
  cbv zeta. eexists. split; [reflexivity |].
  split; [vm_compute; reflexivity |].
  split; [vm_compute; reflexivity |].
  exists "total_products", "total_users".
  repeat split; vm_compute; congruence.
Qed.

(** C3 as stated fails. With the listing down, the one refresh attempt
    of a cold [GetTopProducts] fails, the value is still not cached, and the
    call returns the error instead of an empty list. *)
Lemma GetTopProducts_cold_returns_error :
  Get "top_products" (cache coldStart) = None /\
  refreshAttempts (snd (GetTopProducts listingDown 5 coldStart)) = 1 /\
  Get "top_products" (cache (snd (GetTopProducts listingDown 5 coldStart)))
    = None /\
  fst (GetTopProducts listingDown 5 coldStart) = Fail "database is down" /\
  fst (GetTopProducts listingDown 5 coldStart) <> Ok [].
Proof. repeat split; vm_compute; congruence. Qed.

Lemma GetTopProducts_cold_witness :
  Get "top_products" (cache coldStart) = None /\
  refreshAttempts (snd (GetTopProducts healthy 5 coldStart)) = 1 /\
  fst (GetTopProducts healthy 5 coldStart) = Ok [].
Proof.
  split; [reflexivity |].
  apply (GetTopProducts_cold healthy coldStart 5). reflexivity.
Defined.

(** C4 as stated fails. With nothing cached and the listing down, each of
    the three read paths hands the refresh error to its caller. *)
Lemma read_paths_fail_on_cold_start :
  cache coldStart = NewStatsCache /\
  fst (RefreshStats listingDown coldStart) = Some "database is down" /\
  fst (GetStats listingDown coldStart) = Fail "database is down" /\
  fst (GetCategoryStats listingDown coldStart) = Fail "database is down" /\
  fst (GetWishlistStats listingDown coldStart) = Fail "database is down" /\
  ~ (exists all, fst (GetStats listingDown coldStart) = Ok all) /\
  ~ (exists stats, fst (GetCategoryStats listingDown coldStart) = Ok stats) /\
  ~ (exists stats, fst (GetWishlistStats listingDown coldStart) = Ok stats).
Proof.
  repeat split; try (vm_compute; reflexivity);
    intros [r Hr]; vm_compute in Hr; discriminate.
Qed.

Lemma read_paths_return_refresh_error_witness :
  fst (RefreshStats listingDown coldStart) = Some "database is down" /\
  fst (GetStats listingDown coldStart) = Fail "database is down" /\
  fst (GetCategoryStats listingDown coldStart) = Fail "database is down" /\
  fst (GetWishlistStats listingDown coldStart) = Fail "database is down".
Proof.
  split; [reflexivity |].
  destruct (read_paths_return_refresh_error listingDown coldStart
              "database is down" eq_refl) as (Hstats & Hcat & Hwish).
  split; [apply Hstats; reflexivity |].
  split; [apply Hcat; reflexivity | apply Hwish; reflexivity].
Defined.

(** The same on one run: after a successful refresh over a catalogue of
    42 products that contains product 7, [GetAll] reports 42 and
    [GetTopProducts] returns an empty list, not an entry with ID 7. *)
Lemma top_products_empty_after_refresh :
  let refreshed := snd (RefreshStats healthy coldStart) in
  fst (RefreshStats healthy coldStart) = None /\
  fst (cacheGetAll healthy refreshed) !! "total_products" = Some (VInt64 42) /\
  fst (GetTopProducts healthy 5 refreshed) = Ok [] /\
  ~ (exists tp : TopProduct,
       fst (GetTopProducts healthy 5 refreshed) = Ok [tp] /\
       tp_ProductID tp = 7%N).
Proof.
  cbv zeta. repeat split; try (vm_compute; reflexivity).
  intros (tp & Htp & _). vm_compute in Htp. discriminate.
Qed.


Lemma GetCategoryStats_unknown_category_witness :
  categoryCounts (cache categorised) !! 8%N = Some 1%Z /\
  exists stats : list CategoryStat,
    fst (GetCategoryStats healthy categorised) = Ok stats /\
    mkCategoryStat 8 "Unknown" 1 ∈ stats.
Proof.
  split; [reflexivity |].
  apply (GetCategoryStats_unknown_category healthy categorised 8%N 1%Z
           [electronics]).
  - reflexivity.
  - reflexivity.
  - intros cat Hcat. apply list_elem_of_singleton in Hcat. subst cat.
    discriminate.
Defined.

Lemma GetWishlistStats_skips_failed_lookups_witness :
  exists stats : list WishlistStat,
    fst (GetWishlistStats healthy wishlisted) = Ok stats /\
    (forall stat : WishlistStat,
       stat ∈ stats <->
       exists (id : N) (count : Z) (p : Product),
         wishlistCounts (cache wishlisted) !! id = Some count /\
         product_FindByID (productRepo healthy) id = (Some p, None) /\
         stat = mkWishlistStat id (prod_Name p) count) /\
    NoDup (ws_ProductID <$> stats).
Proof.
  apply (GetWishlistStats_skips_failed_lookups healthy wishlisted).
  intros Hempty. vm_compute in Hempty. discriminate.
Defined.

Example GetWishlistStats_on_wishlisted :
  fst (GetWishlistStats healthy wishlisted) =
    Ok [mkWishlistStat 7 "Smartphone X" 3].
Proof. vm_compute. reflexivity. Qed.

End Runs.

(** * Further properties of the code *)

(** ** The cache methods in combination *)

Section CacheCombined.
Import Cache Interleaving.

Variable formatRFC3339 : Time -> string.

(** [Set] then [Get]: the key just written reads back the value written,
    every other key reads what it read before, and a second [Set] on the
    same key replaces the first. *)
Theorem Get_after_Set (key key' : string) (value value' : Value)
    (now now' : Time) (c : StatsCache) :
  Get key (Set_ key value now c) = Some value /\
  (key <> key' -> Get key' (Set_ key value now c) = Get key' c) /\
  Set_ key value' now' (Set_ key value now c) = Set_ key value' now' c.
Proof.
  unfold Get, Set_; cbn. split; [apply lookup_insert_eq |]. split.
  - intros Hne. apply lookup_insert_ne. exact Hne.
  - rewrite insert_insert_eq. reflexivity.
Qed.

(** [GetAll] is [Get] on every key but [last_refreshed], where it reports
    the rendered timestamp: an entry stored under that very key stays
    readable through [Get] and is never shown by [GetAll]. *)
Theorem GetAll_shadows_last_refreshed (key : string) (value : Value)
    (now : Time) (c : StatsCache) :
  GetAll formatRFC3339 c !! key =
    (if decide (key = "last_refreshed")
     then Some (VString (formatRFC3339 (lastRefreshed c)))
     else Get key c) /\
  Get "last_refreshed" (Set_ "last_refreshed" value now c) = Some value /\
  GetAll formatRFC3339 (Set_ "last_refreshed" value now c) !! "last_refreshed"
    = Some (VString (formatRFC3339 now)).
Proof.
  split; [| split].
  - destruct (decide (key = "last_refreshed")) as [->|Hne].
    + apply GetAll_lookup_last_refreshed.
    + apply GetAll_lookup_metric. exact Hne.
  - apply lookup_insert_eq.
  - apply GetAll_lookup_last_refreshed.
Qed.

End CacheCombined.

(** ** The read paths of the use case, case by case *)

Section ReadPathFacts.
Import Cache UseCase Scheduler ReadPaths.

Variable uc : Deps.

(** A cached [[]entity.TopProduct] is served as it is: [GetTopProducts]
    returns it and changes nothing, so it makes no refresh, no repository
    call, no log line and no clock reading. *)
Theorem GetTopProducts_hit (s : State) (limit : Z)
    (cached : list TopProduct) :
  Get "top_products" (cache s) = Some (VTopProducts cached) ->
  GetTopProducts uc limit s = (Ok cached, s).
Proof.
  intros Hhit. unfold GetTopProducts, bind.
  rewrite cachedTopProducts_eq, Hhit. reflexivity.
Qed.

(** A [top_products] entry that is not a [[]entity.TopProduct] counts as
    a miss: [GetTopProducts] makes one refresh attempt and returns its error,
    or else the empty list the refresh has put in place of the entry. *)
Theorem GetTopProducts_wrong_type (s : State) (limit : Z) (value : Value) :
  Get "top_products" (cache s) = Some value ->
  asTopProducts value = None ->
  refreshAttempts (snd (GetTopProducts uc limit s)) = S (refreshAttempts s) /\
  match (listing uc).2 with
  | Some e => fst (GetTopProducts uc limit s) = Fail e
  | None =>
      fst (GetTopProducts uc limit s) = Ok [] /\
      Get "top_products" (cache (snd (GetTopProducts uc limit s)))
        = Some (VTopProducts [])
  end.
Proof.
  intros Hget Htype.
  assert (Hmiss : fst (cachedTopProducts s) = None)
    by (rewrite cachedTopProducts_eq; cbn; rewrite Hget; exact Htype).
  rewrite (GetTopProducts_miss uc s limit Hmiss).
  destruct (listing uc).2 as [e|] eqn:He; cbn [fst snd].
  - split; [apply RefreshStats_attempts | reflexivity].
  - split; [apply RefreshStats_attempts |]. split; [reflexivity |].
    rewrite (RefreshStats_success uc s _ He eq_refl). cbn [snd cache].
    apply refreshed_top_products.
Qed.

(** While [uc.lastRefresh] is no older than [refreshTimeout], [GetStats]
    answers from the cache alone: it returns [GetAll()] of the cache as it
    is and only reads the clock. *)
Theorem GetStats_fresh (s : State) :
  (Time_Sub (clock uc (ticks s)) (lastRefresh s) <= refreshTimeout uc)%Z ->
  GetStats uc s =
    (Ok (GetAll (formatRFC3339 uc) (cache s)), snd (timeNow uc s)).
Proof.
  intros Hfresh. apply Z.ltb_ge in Hfresh.
  unfold GetStats, bind, getLastRefresh, timeSince, bind, ret.
  cbn [timeNow]. rewrite Hfresh. reflexivity.
Qed.

Lemma refreshedData_eq (count : Z) (t : nat) (c : StatsCache) :
  data (Interleaving.applyWrites (clock uc)
          (Interleaving.refreshWrites (collectedOk count)) t c) =
    refreshedData count (data c).
Proof. reflexivity. Qed.

Ltac through_inserts :=
  repeat first
    [ rewrite lookup_insert_eq
    | rewrite lookup_insert_ne by (congruence || discriminate) ];
  auto.

Lemma refreshedData_idempotent (count : Z) (m : gmap string Value) :
  refreshedData count (refreshedData count m) = refreshedData count m.
Proof.
  apply map_eq. intros key. unfold refreshedData.
  (destruct (decide (key = "top_products")) as [->|]; [through_inserts |]);
  (destruct (decide (key = "average_rating")) as [->|]; [through_inserts |]);
  (destruct (decide (key = "total_reviews")) as [->|]; [through_inserts |]);
  (destruct (decide (key = "total_users")) as [->|]; [through_inserts |]);
  (destruct (decide (key = "total_products")) as [->|]; [through_inserts |]);
  through_inserts.
Qed.

Lemma RefreshStats_success_fields (s : State) (count : Z) :
  (listing uc).2 = None -> (listing uc).1.2 = count ->
  data (cache (snd (RefreshStats uc s))) = refreshedData count (data (cache s))
  /\ lastRefresh (snd (RefreshStats uc s)) = clock uc (7 + ticks s)
  /\ ticks (snd (RefreshStats uc s)) = 8 + ticks s
  /\ broadcasts (snd (RefreshStats uc s))
       = broadcasts s ++ [statsUpdatePayload].
Proof.
  intros He Hn. rewrite (RefreshStats_success uc s count He Hn).
  repeat split.
Qed.

(** What a successful [RefreshStats] does.  It overwrites the five scalar
    entries and keeps every other one; it empties both count maps, whatever
    they held; it sets [uc.lastRefresh] to a clock reading taken after the
    last cache write; it broadcasts the update payload exactly once.  A
    second refresh right after leaves the same scalar entries. *)
Theorem RefreshStats_success_effects (s : State) (page : list Product)
    (count : Z) :
  listing uc = (page, count, None) ->
  let s1 := snd (RefreshStats uc s) in
  fst (RefreshStats uc s) = None /\
  data (cache s1) = refreshedData count (data (cache s)) /\
  GetCategoryCounts (cache s1) = ∅ /\
  GetWishlistCounts (cache s1) = ∅ /\
  GetLastRefreshed (cache s1) = clock uc (6 + ticks s) /\
  lastRefresh s1 = clock uc (7 + ticks s) /\
  broadcasts s1 = broadcasts s ++ [statsUpdatePayload] /\
  data (cache (snd (RefreshStats uc s1))) = data (cache s1).
Proof.
  intros Hlist.
  assert (He : (listing uc).2 = None) by (rewrite Hlist; reflexivity).
  assert (Hn : (listing uc).1.2 = count) by (rewrite Hlist; reflexivity).
  cbv zeta. rewrite !(RefreshStats_success uc _ count He Hn). cbn [fst snd cache
    lastRefresh broadcasts].
  destruct (refreshed_counts uc count (ticks s) (cache s)) as (Hc & Hw & Ht).
  cbv zeta in Hc, Hw, Ht.
  unfold GetCategoryCounts, GetWishlistCounts, GetLastRefreshed.
  rewrite !copy_map_id, Hc, Hw, Ht, !refreshedData_eq,
    refreshedData_idempotent.
  repeat split.
Qed.

(** A stale [GetStats] over a working listing returns the refreshed
    numbers: the five scalar entries as the refresh wrote them over the old
    ones, and [last_refreshed] rendered from the last cache write of that
    refresh. *)
Theorem GetStats_stale_success (s : State) (page : list Product)
    (count : Z) :
  (refreshTimeout uc < Time_Sub (clock uc (ticks s)) (lastRefresh s))%Z ->
  listing uc = (page, count, None) ->
  fst (GetStats uc s) =
    Ok (<["last_refreshed" :=
            VString (formatRFC3339 uc (clock uc (7 + ticks s)))]>
          (refreshedData count (data (cache s)))).
Proof.
  intros Hstale Hlist. apply Z.ltb_lt in Hstale.
  assert (He : (listing uc).2 = None) by (rewrite Hlist; reflexivity).
  assert (Hn : (listing uc).1.2 = count) by (rewrite Hlist; reflexivity).
  rewrite (GetStats_stale uc s Hstale). cbv zeta. rewrite He.
  rewrite (RefreshStats_success uc _ count He Hn). cbn [fst snd cache].
  unfold GetAll. rewrite copy_map_id. reflexivity.
Qed.

Lemma GetCategoryStats_refresh_succeeds (s : State) :
  categoryCounts (cache s) = ∅ -> (listing uc).2 = None ->
  GetCategoryStats uc s =
    (match (category_List (categoryRepo uc)).2 with
     | Some e => Fail e
     | None => Ok []
     end, snd (RefreshStats uc s)).
Proof.
  intros Hempty He.
  unfold GetCategoryStats, bind, cacheGetCategoryCounts, getCache, bind, ret.
  unfold GetCategoryCounts. rewrite copy_map_id, Hempty.
  rewrite decide_True by apply map_size_empty.
  rewrite (RefreshStats_success uc s _ He eq_refl). cbn [cache snd].
  destruct (refreshed_counts uc (listing uc).1.2 (ticks s) (cache s))
    as (Hc & _ & _).
  cbv zeta in Hc. rewrite copy_map_id, Hc, map_to_list_empty.
  destruct (category_List (categoryRepo uc)) as [cats [e|]]; reflexivity.
Qed.

Lemma GetWishlistStats_refresh_succeeds (s : State) :
  wishlistCounts (cache s) = ∅ -> (listing uc).2 = None ->
  GetWishlistStats uc s = (Ok [], snd (RefreshStats uc s)).
Proof.
  intros Hempty He.
  unfold GetWishlistStats, bind, cacheGetWishlistCounts, getCache, bind, ret.
  unfold GetWishlistCounts. rewrite copy_map_id, Hempty.
  rewrite decide_True by apply map_size_empty.
  rewrite (RefreshStats_success uc s _ He eq_refl). cbn [cache snd].
  destruct (refreshed_counts uc (listing uc).1.2 (ticks s) (cache s))
    as (_ & Hw & _).
  cbv zeta in Hw. rewrite copy_map_id, Hw, map_to_list_empty. reflexivity.
Qed.

(** With no category counts cached, every [GetCategoryStats] costs one
    refresh attempt and still has nothing to report: it returns the error of
    the refresh, or the error of the category listing, or an empty list.
    [GetWishlistStats] likewise returns the error of the refresh or an empty
    list.  (A successful refresh leaves both count maps empty.) *)
Theorem empty_counts_refresh_every_time (s : State) :
  (categoryCounts (cache s) = ∅ ->
   refreshAttempts (snd (GetCategoryStats uc s)) = S (refreshAttempts s) /\
   fst (GetCategoryStats uc s) =
     match (listing uc).2, (category_List (categoryRepo uc)).2 with
     | Some e, _ => Fail e
     | None, Some e => Fail e
     | None, None => Ok []
     end) /\
  (wishlistCounts (cache s) = ∅ ->
   refreshAttempts (snd (GetWishlistStats uc s)) = S (refreshAttempts s) /\
   fst (GetWishlistStats uc s) =
     match (listing uc).2 with
     | Some e => Fail e
     | None => Ok []
     end).
Proof.
  split; intros Hempty; destruct (listing uc).2 as [e|] eqn:He.
  - rewrite (GetCategoryStats_refresh_fails uc s e Hempty He).
    split; [apply RefreshStats_attempts | reflexivity].
  - rewrite (GetCategoryStats_refresh_succeeds s Hempty He).
    split; [apply RefreshStats_attempts | reflexivity].
  - rewrite (GetWishlistStats_refresh_fails uc s e Hempty He).
    split; [apply RefreshStats_attempts | reflexivity].
  - rewrite (GetWishlistStats_refresh_succeeds s Hempty He).
    split; [apply RefreshStats_attempts | reflexivity].
Qed.

(** When category counts are cached, a failing category listing fails
    [GetCategoryStats] with that error and changes nothing. *)
Theorem GetCategoryStats_listing_error (s : State)
    (categories : list Category) (e : Error) :
  categoryCounts (cache s) <> ∅ ->
  category_List (categoryRepo uc) = (categories, Some e) ->
  GetCategoryStats uc s = (Fail e, s).
Proof.
  intros Hne Hcats.
  unfold GetCategoryStats, bind, cacheGetCategoryCounts, getCache, bind, ret.
  unfold GetCategoryCounts. rewrite copy_map_id.
  rewrite decide_False by (apply map_size_non_empty_iff; exact Hne).
  rewrite Hcats. reflexivity.
Qed.

Lemma resolveName_first_match (before after : list Category)
    (cat : Category) (categoryName : string) :
  (forall c, c ∈ before -> cat_ID c <> cat_ID cat) ->
  resolveName (before ++ cat :: after) (cat_ID cat) categoryName
    = cat_Name cat.
Proof.
  induction before as [|c rest IH]; intros Hnone; cbn.
  - rewrite N.eqb_refl. reflexivity.
  - destruct (N.eqb_spec (cat_ID c) (cat_ID cat)) as [Heq|_].
    + exfalso. apply (Hnone c); [left | exact Heq].
    + apply IH. intros c' Hc'. apply Hnone. right. exact Hc'.
Qed.

(** With category counts cached and the category listing working,
    [GetCategoryStats] returns one statistic per cached entry: as many as
    the map has entries, with pairwise distinct category IDs, each carrying
    the count cached for its ID and the name [resolveName] gives it. *)
Theorem GetCategoryStats_one_per_entry (s : State)
    (categories : list Category) :
  categoryCounts (cache s) <> ∅ ->
  category_List (categoryRepo uc) = (categories, None) ->
  exists stats : list CategoryStat,
    GetCategoryStats uc s = (Ok stats, s) /\
    length stats = size (categoryCounts (cache s)) /\
    NoDup (cs_CategoryID <$> stats) /\
    forall stat : CategoryStat,
      stat ∈ stats <->
      categoryCounts (cache s) !! cs_CategoryID stat
        = Some (cs_ProductCount stat) /\
      cs_CategoryName stat
        = resolveName categories (cs_CategoryID stat) "Unknown".
Proof.
  intros Hne Hcats.
  rewrite (GetCategoryStats_cached uc s categories Hne Hcats).
  eexists. split; [reflexivity |]. split; [| split].
  - rewrite length_fmap. apply length_map_to_list.
  - rewrite <- list_fmap_compose.
    assert (Hids : cs_CategoryID ∘ namedStat categories <$>
                     map_to_list (categoryCounts (cache s))
                   = (map_to_list (categoryCounts (cache s))).*1)
      by (apply list_fmap_ext; intros i [id count] _; reflexivity).
    rewrite Hids. apply NoDup_fst_map_to_list.
  - intros stat. rewrite list_elem_of_fmap. split.
    + intros ([id count] & -> & Hin). apply elem_of_map_to_list in Hin.
      split; [exact Hin | reflexivity].
    + intros [Hcount Hname]. exists (cs_CategoryID stat, cs_ProductCount stat).
      split; [| apply elem_of_map_to_list; exact Hcount].
      destruct stat as [id name count]; cbn in *. subst name. reflexivity.
Qed.

(** A category ID carried by several of the listed categories is named
    after the first of them in listing order. *)
Theorem GetCategoryStats_first_matching_name (s : State)
    (before after : list Category) (cat : Category) (count : Z) :
  categoryCounts (cache s) !! cat_ID cat = Some count ->
  category_List (categoryRepo uc) = (before ++ cat :: after, None) ->
  (forall c, c ∈ before -> cat_ID c <> cat_ID cat) ->
  exists stats : list CategoryStat,
    fst (GetCategoryStats uc s) = Ok stats /\
    mkCategoryStat (cat_ID cat) (cat_Name cat) count ∈ stats /\
    forall stat : CategoryStat,
      stat ∈ stats -> cs_CategoryID stat = cat_ID cat ->
      cs_CategoryName stat = cat_Name cat.
Proof.
  intros Hentry Hcats Hfirst.
  assert (Hne : categoryCounts (cache s) <> ∅).
  { intros Hempty. rewrite Hempty in Hentry.
    exact (lookup_empty_Some _ _ Hentry). }
  rewrite (GetCategoryStats_cached uc s _ Hne Hcats).
  eexists. split; [reflexivity |]. split.
  - apply list_elem_of_fmap. exists (cat_ID cat, count). split.
    + unfold namedStat; cbn.
      rewrite (resolveName_first_match before after cat "Unknown" Hfirst).
      reflexivity.
    + apply elem_of_map_to_list. exact Hentry.
  - intros stat Hin Hid. apply list_elem_of_fmap in Hin.
    destruct Hin as ([id n] & -> & _). cbn in Hid. subst id.
    unfold namedStat; cbn.
    apply (resolveName_first_match before after cat "Unknown" Hfirst).
Qed.

Lemma wishlistWorkers_state (entries : list (N * Z))
    (stats : list WishlistStat) (s : State) :
  snd (wishlistWorkers uc entries stats s) =
    mkState (cache s) (lastRefresh s) (ticks s)
      (log s ++ omap (lookupFailure uc) entries) (broadcasts s).
Proof.
  revert stats s.
  induction entries as [|[id count] rest IH]; intros stats s; cbn.
  - rewrite app_nil_r. destruct s; reflexivity.
  - unfold bind, wishlistWorker, lookupFailure at 1; cbn [fst snd].
    destruct (product_FindByID (productRepo uc) id) as [[p|] [e|]]; cbn;
      rewrite IH; cbn; rewrite <- ?app_assoc; reflexivity.
Qed.

(** With wishlist counts cached, [GetWishlistStats] leaves the cache and
    [uc.lastRefresh] alone, makes no refresh and no broadcast, and adds to
    the log one error line for each entry whose product lookup reported an
    error, and nothing else. *)
Theorem GetWishlistStats_logs_failed_lookups (s : State) :
  wishlistCounts (cache s) <> ∅ ->
  snd (GetWishlistStats uc s) =
    mkState (cache s) (lastRefresh s) (ticks s)
      (log s ++ omap (lookupFailure uc)
                  (map_to_list (wishlistCounts (cache s))))
      (broadcasts s).
Proof.
  intros Hne.
  unfold GetWishlistStats, bind at 1.
  unfold cacheGetWishlistCounts, getCache, bind at 1, ret.
  unfold GetWishlistCounts. rewrite copy_map_id.
  rewrite decide_False by (apply map_size_non_empty_iff; exact Hne).
  unfold bind.
  pose proof (wishlistWorkers_state
                (map_to_list (wishlistCounts (cache s))) [] s) as Hw.
  destruct (wishlistWorkers _ _ _ s) as [stats s']. cbn in Hw. subst s'.
  reflexivity.
Qed.

End ReadPathFacts.

(** ** The refresh loop *)

Section SchedulerFacts.
Import Cache UseCase Scheduler.

Variable uc : Deps.

Lemma onTick_failure (s : State) (e : Error) :
  (listing uc).2 = Some e ->
  onTick uc s =
    (tt, mkState (cache s) (lastRefresh s) (ticks s)
           (((log s ++ [LogInfo "Refreshing statistics"])
               ++ [LogError e "Failed to count products"])
              ++ [LogError e "Failed to refresh statistics"])
           (broadcasts s)).
Proof.
  intros He. unfold onTick, bind.
  rewrite (RefreshStats_failure uc s e He). reflexivity.
Qed.

Lemma onTick_success (s : State) :
  (listing uc).2 = None ->
  onTick uc s = (tt, snd (RefreshStats uc s)).
Proof.
  intros He. unfold onTick, bind.
  rewrite (RefreshStats_success uc s _ He eq_refl). reflexivity.
Qed.

(** A failing refresh does not stop the loop.  While the product listing
    fails with [e], each of [n] ticks makes one refresh attempt and logs one
    [Failed to refresh statistics] line for [e]; the cache,
    [uc.lastRefresh] and the broadcasts stay as they were. *)
Theorem startRefreshLoop_survives_failures (n : nat) (s : State)
    (e : Error) :
  (listing uc).2 = Some e ->
  let s' := snd (startRefreshLoop uc n s) in
  refreshAttempts s' = refreshAttempts s + n /\
  failedTicks e s' = failedTicks e s + n /\
  cache s' = cache s /\
  lastRefresh s' = lastRefresh s /\
  broadcasts s' = broadcasts s.
Proof.
  intros He. cbv zeta. revert s.
  induction n as [|n IH]; intros s; cbn.
  - rewrite !Nat.add_0_r. repeat split.
  - unfold bind. rewrite (onTick_failure s e He).
    destruct (IH (mkState (cache s) (lastRefresh s) (ticks s)
                    (((log s ++ [LogInfo "Refreshing statistics"])
                        ++ [LogError e "Failed to count products"])
                       ++ [LogError e "Failed to refresh statistics"])
                    (broadcasts s)))
      as (Ha & Hf & Hc & Hl & Hb).
    rewrite Ha, Hf, Hc, Hl, Hb. cbn [cache lastRefresh broadcasts].
    unfold refreshAttempts, failedTicks; cbn [log].
    rewrite !filter_app, !length_app; cbn.
    repeat case_decide; try discriminate; try congruence; cbn.
    repeat split; lia.
Qed.

(** While the product listing works, each of [n] ticks makes one refresh
    attempt, takes eight clock readings and broadcasts once; after the first
    tick the scalar entries are those of one refresh and stay so. *)
Theorem startRefreshLoop_refreshes_every_tick (n : nat) (s : State)
    (page : list Product) (count : Z) :
  listing uc = (page, count, None) ->
  let s' := snd (startRefreshLoop uc n s) in
  refreshAttempts s' = refreshAttempts s + n /\
  ticks s' = 8 * n + ticks s /\
  length (broadcasts s') = length (broadcasts s) + n /\
  (0 < n ->
   data (cache s') = refreshedData count (data (cache s)) /\
   lastRefresh s' = clock uc (ticks s' - 1)).
Proof.
  intros Hlist. cbv zeta.
  assert (He : (listing uc).2 = None) by (rewrite Hlist; reflexivity).
  assert (Hn : (listing uc).1.2 = count) by (rewrite Hlist; reflexivity).
  pose proof (fun s0 => RefreshStats_success_fields uc s0 count He Hn)
    as Heff.
  assert (Hticks : forall s0, ticks (snd (RefreshStats uc s0)) = 8 + ticks s0)
    by (intros s0; apply (Heff s0)).
  revert s. induction n as [|n IH]; intros s; cbn [startRefreshLoop].
  - unfold ret; cbn [snd]. repeat split; try lia.
  - unfold bind. rewrite (onTick_success s He).
    destruct (IH (snd (RefreshStats uc s))) as (Ha & Ht & Hb & Hd).
    destruct (Heff s) as (Hdata & Hlast & _ & Hbro).
    rewrite Ha, Ht, Hb, RefreshStats_attempts, Hbro, length_app, Hticks.
    cbn [length].
    split; [lia |]. split; [lia |]. split; [lia |]. intros _.
    destruct n as [|n].
    + unfold startRefreshLoop, ret in *; cbn [snd] in *.
      rewrite Hdata, Hlast. split; [reflexivity |].
      f_equal; lia.
    + destruct Hd as [Hd1 Hd2]; [lia |]. rewrite Hd1, Hd2, Hdata, Ht, Hticks.
      split; [apply refreshedData_idempotent | reflexivity].
Qed.

End SchedulerFacts.

(** ** The HTTP handlers *)

Section HandlerFacts.
Import Cache UseCase.

Variable uc : Deps.

Lemma answers_bind {A} (wrap : A -> Handlers.Body) (msg : string)
    (m : M (Result A)) (s : State) :
  Handlers.answers wrap msg (m s)
    ((let* r := m in
      match r with
      | Fail err =>
          writeLog (LogError err msg) ;;;
          ret (Handlers.mkResponse Handlers.StatusInternalServerError
                 (Handlers.BodyError msg))
      | Ok result =>
          ret (Handlers.mkResponse Handlers.StatusOK (wrap result))
      end) s).
Proof.
  unfold Handlers.answers, bind. destruct (m s) as [[result|e] s']; cbn.
  - reflexivity.
  - repeat split.
Qed.

(** Every endpoint of the statistics answers [200] with what its use case
    method returned (a fixed message for the refresh), or else [500] with its
    own fixed message: the text of the underlying error goes to the log and
    never into the response. *)
Theorem stats_endpoints_hide_errors (s : State) :
  Handlers.answers Handlers.BodyStats "Failed to get stats"
    (GetStats uc s) (Handlers.GetStats uc s) /\
  Handlers.answers Handlers.BodyCategories "Failed to get category stats"
    (GetCategoryStats uc s) (Handlers.GetCategoryStats uc s) /\
  Handlers.answers Handlers.BodyWishlistStats "Failed to get wishlist stats"
    (GetWishlistStats uc s) (Handlers.GetWishlistStats uc s) /\
  Handlers.answers Handlers.BodyTopProducts "Failed to get top products"
    (GetTopProducts uc 5 s) (Handlers.GetTopProducts uc s) /\
  match fst (RefreshStats uc s) with
  | None =>
      Handlers.RefreshStats uc s =
        (Handlers.mkResponse Handlers.StatusOK
           (Handlers.BodyMessage "Statistics refreshed successfully"),
         snd (RefreshStats uc s))
  | Some e =>
      fst (Handlers.RefreshStats uc s) =
        Handlers.mkResponse Handlers.StatusInternalServerError
          (Handlers.BodyError "Failed to refresh stats") /\
      log (snd (Handlers.RefreshStats uc s)) =
        log (snd (RefreshStats uc s))
          ++ [LogError e "Failed to refresh stats"]
  end.
Proof.
  repeat split; try apply answers_bind.
  unfold Handlers.RefreshStats, bind.
  destruct (RefreshStats uc s) as [[e|] s']; cbn; [split |]; reflexivity.
Qed.

(** With the product listing down, a stale [uc.lastRefresh] and nothing
    cached, all five endpoints answer [500], and none of them changes the
    cache. *)
Theorem stats_endpoints_fail_when_listing_down (s : State) (e : Error) :
  (listing uc).2 = Some e ->
  (refreshTimeout uc < Time_Sub (clock uc (ticks s)) (lastRefresh s))%Z ->
  categoryCounts (cache s) = ∅ ->
  wishlistCounts (cache s) = ∅ ->
  Get "top_products" (cache s) = None ->
  Forall (fun reply : Handlers.Response * State =>
            Handlers.status (fst reply) = 500%Z /\
            cache (snd reply) = cache s)
    [ Handlers.GetStats uc s; Handlers.GetCategoryStats uc s;
      Handlers.GetWishlistStats uc s; Handlers.GetTopProducts uc s;
      Handlers.RefreshStats uc s ].
Proof.
  intros He Hstale Hcat Hwish Htop. apply Z.ltb_lt in Hstale.
  assert (Hmiss : fst (cachedTopProducts s) = None)
    by (rewrite cachedTopProducts_eq; cbn; rewrite Htop; reflexivity).
  repeat constructor.
  all: unfold Handlers.GetStats, Handlers.GetCategoryStats,
         Handlers.GetWishlistStats, Handlers.GetTopProducts,
         Handlers.RefreshStats, bind at 1.
  all: rewrite ?(GetStats_stale uc s Hstale),
         ?(GetCategoryStats_refresh_fails uc s e Hcat He),
         ?(GetWishlistStats_refresh_fails uc s e Hwish He),
         ?(GetTopProducts_miss uc s 5 Hmiss); cbv zeta; rewrite ?He.
  all: rewrite !(RefreshStats_failure uc _ e He); reflexivity.
Qed.

End HandlerFacts.

(** ** The WebSocket hub *)

Section HubFacts.
Import Hub.

Lemma Broadcast_written (message : string) (hub : WebSocketHub)
    (conn : Conn) :
  written (Broadcast message hub) !! conn =
    match clients hub !! conn with
    | Some _ => Some (messagesTo conn hub ++ [message])
    | None => written hub !! conn
    end.
Proof.
  unfold Broadcast, messagesTo; cbn [written]. revert conn.
  apply (map_fold_weak_ind
           (fun w (m : gmap Conn bool) =>
              forall conn,
                w !! conn =
                  match m !! conn with
                  | Some _ => Some (default [] (written hub !! conn) ++ [message])
                  | None => written hub !! conn
                  end)).
  - intros conn. rewrite lookup_empty. reflexivity.
  - intros i x m w Hfresh IH conn. unfold WriteMessage.
    destruct (decide (i = conn)) as [->|Hne].
    + rewrite !lookup_insert_eq, (IH conn), Hfresh. reflexivity.
    + rewrite !lookup_insert_ne by exact Hne. apply IH.
Qed.

Lemma Broadcast_messagesTo (message : string) (hub : WebSocketHub)
    (conn : Conn) :
  messagesTo conn (Broadcast message hub) =
    (if decide (is_Some (clients hub !! conn))
     then messagesTo conn hub ++ [message]
     else messagesTo conn hub).
Proof.
  unfold messagesTo at 1. rewrite Broadcast_written.
  destruct (clients hub !! conn) as [b|] eqn:Hc.
  - rewrite decide_True by (eexists; reflexivity). reflexivity.
  - rewrite decide_False by (intros [b Hb]; discriminate). reflexivity.
Qed.

(** [Broadcast] hands the message to every registered connection exactly
    once, after what that connection was sent before, and to no other
    connection; it registers and closes nothing. *)
Theorem Broadcast_reaches_each_client_once (message : string)
    (hub : WebSocketHub) (conn : Conn) :
  clients (Broadcast message hub) = clients hub /\
  closed (Broadcast message hub) = closed hub /\
  messagesTo conn (Broadcast message hub) =
    (if decide (is_Some (clients hub !! conn))
     then messagesTo conn hub ++ [message]
     else messagesTo conn hub).
Proof.
  split; [reflexivity |]. split; [reflexivity |]. apply Broadcast_messagesTo.
Qed.

(** The life of a connection.  A failed upgrade leaves the hub as it was;
    a connection registered by [HandleWS] receives the next broadcast; once
    its reader has failed it is closed and receives no broadcast any more. *)
Theorem connection_lifecycle (message : string) (hub : WebSocketHub)
    (conn : Conn) (e : Error) :
  HandleWS (Fail e) hub = hub /\
  messagesTo conn (Broadcast message (HandleWS (Ok conn) hub)) =
    messagesTo conn hub ++ [message] /\
  messagesTo conn (Broadcast message (readerExit conn hub)) =
    messagesTo conn hub /\
  conn ∈ closed (readerExit conn hub).
Proof.
  split; [reflexivity |]. split; [| split].
  - rewrite Broadcast_messagesTo. cbn [HandleWS clients].
    rewrite lookup_insert_eq.
    rewrite decide_True by (eexists; reflexivity). reflexivity.
  - rewrite Broadcast_messagesTo. cbn [readerExit clients].
    rewrite lookup_delete_eq.
    rewrite decide_False by (intros [b Hb]; discriminate). reflexivity.
  - cbn. set_solver.
Qed.

End HubFacts.

(** ** The product use case *)

Section ProductFacts.
Import Products.

Variable uc : Repos.

(** [ListProducts] makes one repository call and returns its answer.  The
    filter it passes has a page of at least 1 and a page size between 1 and
    100: a page below 1 becomes 1, a page size outside that range becomes
    10, values in range and all other fields go through unchanged. *)
Theorem ListProducts_normalises_pagination (filter : ProductFilter) :
  exists passed : ProductFilter,
    ListProducts uc filter = (repo_List uc passed, [CallList passed]) /\
    (1 <= Page passed)%Z /\ (1 <= PageSize passed <= 100)%Z /\
    Page passed = (if decide (1 <= Page filter)%Z then Page filter else 1%Z) /\
    PageSize passed =
      (if decide (1 <= PageSize filter <= 100)%Z then PageSize filter
       else 10%Z) /\
    (Search passed, CategoryID passed, MinPrice passed, MaxPrice passed,
     SortBy passed, SortOrder passed) =
    (Search filter, CategoryID filter, MinPrice filter, MaxPrice filter,
     SortBy filter, SortOrder filter).
Proof.
  unfold ListProducts. eexists. split; [reflexivity |].
  destruct (Z.leb_spec (Page filter) 0) as [Hp|Hp];
    cbn [PageSize Page setPage];
    destruct (Z.leb_spec (PageSize filter) 0) as [Hs|Hs]; cbn [orb];
    try destruct (Z.ltb_spec 100 (PageSize filter)) as [Hb|Hb];
    cbn [PageSize Page setPage setPageSize Search CategoryID MinPrice
           MaxPrice SortBy SortOrder];
    repeat case_decide; repeat split; lia.
Qed.

(** [GetProduct] returns a product or an error, never neither and never
    both. *)
Lemma GetProduct_found_or_error (id : N) :
  exists (product : option Product) (err : option Error),
    GetProduct uc id = (product, err, [CallFindByID id]) /\
    (is_Some product <-> err = None) /\
    match repo_FindByID uc id with
    | (_, Some e) => err = Some e
    | (None, None) => err = Some "product not found"
    | (Some p, None) => product = Some p
    end.
Proof.
  unfold GetProduct.
  destruct (repo_FindByID uc id) as [[p|] [e|]]; do 2 eexists;
    (split; [reflexivity |]); (split; [| reflexivity]);
    split; intros H; try discriminate; try (destruct H; discriminate);
    try (eexists; reflexivity); reflexivity.
Qed.

(** The product endpoint never answers [404].  The use case turns a
    product the repository does not find into an error, so the handler
    answers [500] with [Failed to get product] for it, as for a failed
    lookup; it answers [200] exactly when the ID parsed and the lookup
    reported no error and a product, and [400] exactly when the ID did not
    parse. *)
Theorem GetProduct_endpoint_never_answers_404
    (formatRFC3339 : Time -> string) (parsed : Result N) :
  let reply := ProductHandlers.GetProduct uc formatRFC3339 parsed in
  ProductHandlers.status reply <> 404%Z /\
  (ProductHandlers.status reply = 200%Z <->
   exists id p, parsed = Ok id /\ repo_FindByID uc id = (Some p, None)) /\
  (ProductHandlers.status reply = 400%Z <-> exists e, parsed = Fail e) /\
  (forall id, parsed = Ok id -> repo_FindByID uc id = (None, None) ->
     reply = ProductHandlers.mkReply 500
               (ProductHandlers.BodyError "Failed to get product")
               [("product not found", "Failed to get product")]
               [CallFindByID id]).
Proof.
  cbv zeta. unfold ProductHandlers.GetProduct.
  destruct parsed as [id|e]; cbn.
  2: { repeat split; try discriminate.
       - intros (id & p & Hp & _). discriminate.
       - intros _. exists e. reflexivity. }
  unfold GetProduct.
  destruct (repo_FindByID uc id) as [[p|] [e|]] eqn:Hfind; cbn;
    repeat split; try discriminate;
    try (intros (id' & p' & [= <-] & Hp'); rewrite Hfind in Hp'; discriminate);
    try (intros (e' & He'); discriminate);
    try (intros id' [= <-] Hnone; rewrite Hfind in Hnone; discriminate).
  - intros _. exists id, p. split; [reflexivity | exact Hfind].
  - intros id' [= <-] _. reflexivity.
Qed.

(** [DeleteProduct] asks the repository to delete exactly when the lookup
    reported no error and a product; then it returns what the deletion
    returned.  Otherwise it returns an error and deletes nothing. *)
Theorem DeleteProduct_deletes_only_found (id : N) :
  exists (err : option Error) (calls : list Call),
    DeleteProduct uc id = (err, calls) /\
    (forall id', CallDelete id' ∈ calls ->
       id' = id /\ exists p, repo_FindByID uc id = (Some p, None)) /\
    match repo_FindByID uc id with
    | (Some _, None) =>
        err = repo_Delete uc id /\ calls = [CallFindByID id; CallDelete id]
    | (_, Some e) => err = Some e
    | (None, None) => err = Some "product not found"
    end.
Proof.
  unfold DeleteProduct.
  destruct (repo_FindByID uc id) as [[p|] [e|]]; do 2 eexists;
    (split; [reflexivity |]); (split; [| auto]);
    intros id' Hin; repeat (apply elem_of_cons in Hin as [Hin|Hin]);
    try discriminate; try (apply elem_of_nil in Hin; contradiction).
  injection Hin as ->. split; [reflexivity | eexists; reflexivity].
Qed.

Lemma validateProduct_rejects (product : Product) :
  Name product = "" \/ PrimFloat.leb (Price product) PrimFloat.zero = true \/
  (StockQuantity product < 0)%Z ->
  exists e, validateProduct product = Some e.
Proof.
  unfold validateProduct. intros Hbad.
  destruct (decide (Name product = "")); [eexists; reflexivity |].
  destruct (PrimFloat.leb (Price product) PrimFloat.zero);
    [eexists; reflexivity |].
  destruct (Z.ltb_spec (StockQuantity product) 0); [eexists; reflexivity |].
  destruct Hbad as [? | [? | ?]]; [contradiction | discriminate | lia].
Qed.

(** A product with an empty name, a price that compares [<= 0] or a
    negative stock is refused before anything is written: [CreateProduct]
    makes no call at all, [UpdateProduct] makes at most its lookup, and
    neither changes the product. *)
Theorem invalid_product_is_never_written (product : Product)
    (categoryIDs : list N) :
  Name product = "" \/ PrimFloat.leb (Price product) PrimFloat.zero = true \/
  (StockQuantity product < 0)%Z ->
  (exists e, CreateProduct uc product categoryIDs = (Some e, product, [])) /\
  (exists e, UpdateProduct uc product categoryIDs
             = (Some e, product, [CallFindByID (ID product)])).
Proof.
  intros Hbad. destruct (validateProduct_rejects product Hbad) as [e He].
  split.
  - exists e. unfold CreateProduct. rewrite He. reflexivity.
  - unfold UpdateProduct. rewrite He.
    destruct (repo_FindByID uc (ID product)) as [[p|] [e'|]];
      eexists; reflexivity.
Qed.

Lemma attachCategories_calls (product : Product) (categoryIDs : list N) :
  forall call, call ∈ snd (attachCategories uc product categoryIDs) ->
    call = CallFindByIDs categoryIDs.
Proof.
  unfold attachCategories. intros call.
  destruct (decide (0 < length categoryIDs)); cbn.
  - destruct (repo_FindByIDs uc categoryIDs) as [cats [e|]]; cbn;
      [| case_decide; cbn]; intros Hin;
      apply list_elem_of_singleton in Hin; exact Hin.
  - intros Hin. apply elem_of_nil in Hin. contradiction.
Qed.

Lemma attachCategories_ok (product product' : Product)
    (categoryIDs : list N) :
  fst (attachCategories uc product categoryIDs) = Ok product' ->
  (categoryIDs = [] /\ product' = product) \/
  (categoryIDs <> [] /\
   product' = setCategories (fst (repo_FindByIDs uc categoryIDs)) product /\
   length (fst (repo_FindByIDs uc categoryIDs)) = length categoryIDs /\
   snd (repo_FindByIDs uc categoryIDs) = None).
Proof.
  unfold attachCategories.
  destruct (decide (0 < length categoryIDs)) as [Hlen|Hlen]; cbn.
  - destruct (repo_FindByIDs uc categoryIDs) as [cats [e|]]; cbn;
      [discriminate |].
    case_decide as Hcount; cbn; [discriminate |].
    intros [= <-]. right. repeat split.
    + intros ->. cbn in Hlen. lia.
    + destruct (decide (length cats = length categoryIDs)); [assumption |].
      contradiction.
  - intros [= <-]. left. split; [| reflexivity].
    destruct categoryIDs; [reflexivity | cbn in Hlen; lia].
Qed.

(** Whatever [CreateProduct] hands to the repository has a status: an
    empty one has become [active].  It is otherwise the product given, with
    its categories replaced by the resolved ones when category IDs were
    given, as many as there are IDs; and the repository is asked to create at
    most once, as the last call. *)
Theorem CreateProduct_writes_complete_product (product : Product)
    (categoryIDs : list N) (created : Product) :
  CallCreate created ∈ (CreateProduct uc product categoryIDs).2 ->
  Status created =
    (if decide (Status product = "") then "active" else Status product) /\
  (ID created, Name created, Description created, Price created,
   StockQuantity created, CreatedAt created, UpdatedAt created) =
  (ID product, Name product, Description product, Price product,
   StockQuantity product, CreatedAt product, UpdatedAt product) /\
  (Categories created =
     if decide (categoryIDs = []) then Categories product
     else fst (repo_FindByIDs uc categoryIDs)) /\
  (categoryIDs <> [] -> length (Categories created) = length categoryIDs) /\
  validateProduct product = None /\
  exists calls,
    (CreateProduct uc product categoryIDs).2 = calls ++ [CallCreate created]
    /\ forall call, call ∈ calls -> call = CallFindByIDs categoryIDs.
Proof.
  unfold CreateProduct.
  destruct (validateProduct product) as [e|] eqn:Hvalid; cbn.
  { intros Hin. apply elem_of_nil in Hin. contradiction. }
  pose proof (attachCategories_calls product categoryIDs) as Hcalls.
  pose proof (fun p' => attachCategories_ok product p' categoryIDs) as Hok.
  destruct (attachCategories uc product categoryIDs) as [[attached|e] calls];
    cbn [fst snd] in *.
  2: { intros Hin. apply Hcalls in Hin. discriminate. }
  specialize (Hok attached eq_refl).
  destruct (repo_Create uc _) as [left err] eqn:Hcreate. cbn [snd].
  intros Hin. apply elem_of_app in Hin as [Hin|Hin].
  { apply Hcalls in Hin. discriminate. }
  apply list_elem_of_singleton in Hin. injection Hin as ->.
  assert (Hstatus : Status attached = Status product).
  { destruct Hok as [[_ ->] | (_ & -> & _)]; reflexivity. }
  split.
  { rewrite <- Hstatus. case_decide; [reflexivity |].
    destruct (decide (Status attached = "")); [contradiction | reflexivity]. }
  split.
  { destruct Hok as [[_ ->] | (_ & -> & _)]; case_decide; reflexivity. }
  split.
  { destruct Hok as [[-> ->] | (Hne & -> & _)];
      repeat case_decide; try reflexivity; try contradiction. }
  split.
  { intros Hne. destruct Hok as [[-> _] | (_ & -> & Hlen & _)];
      [contradiction |]. case_decide; exact Hlen. }
  split; [reflexivity |].
  exists calls. split; [reflexivity | exact Hcalls].
Qed.

(** When category IDs are given and the repository resolves a different
    number of categories, or fails, neither [CreateProduct] nor
    [UpdateProduct] writes: each returns an error and leaves the product as
    it was. *)
Theorem unresolved_categories_block_the_write (product : Product)
    (categoryIDs : list N) :
  categoryIDs <> [] ->
  (snd (repo_FindByIDs uc categoryIDs) <> None \/
   length (fst (repo_FindByIDs uc categoryIDs)) <> length categoryIDs) ->
  let created := CreateProduct uc product categoryIDs in
  let updated := UpdateProduct uc product categoryIDs in
  (created.1.1 <> None /\ created.1.2 = product /\
   forall p, CallCreate p ∉ created.2) /\
  (updated.1.1 <> None /\ updated.1.2 = product /\
   forall p, CallUpdate p ∉ updated.2) /\
  (validateProduct product = None ->
   snd (repo_FindByIDs uc categoryIDs) = None ->
   created.1.1 = Some "one or more categories not found").
Proof.
  intros Hne Hbad. cbv zeta.
  assert (Hlen : 0 < length categoryIDs)
    by (destruct categoryIDs; [contradiction | cbn; lia]).
  assert (Hattach :
    exists e, attachCategories uc product categoryIDs
              = (Fail e, [CallFindByIDs categoryIDs]) /\
              (snd (repo_FindByIDs uc categoryIDs) = None ->
               e = "one or more categories not found")).
  { unfold attachCategories. rewrite decide_True by exact Hlen.
    destruct (repo_FindByIDs uc categoryIDs) as [cats [e|]]; cbn in *.
    - exists e. split; [reflexivity | discriminate].
    - destruct Hbad as [Hbad | Hbad]; [contradiction |].
      rewrite decide_True by exact Hbad. eexists. split; reflexivity. }
  destruct Hattach as (e & Hattach & He).
  unfold CreateProduct, UpdateProduct. rewrite Hattach.
  split; [| split].
  - destruct (validateProduct product); cbn; repeat split;
      try discriminate; intros p Hin;
      repeat (apply elem_of_cons in Hin as [Hin|Hin]); try discriminate;
      apply elem_of_nil in Hin; contradiction.
  - destruct (repo_FindByID uc (ID product)) as [[p0|] [e0|]]; cbn;
      try destruct (validateProduct product); cbn; repeat split;
      try discriminate; intros p Hin;
      repeat (apply elem_of_cons in Hin as [Hin|Hin]); try discriminate;
      apply elem_of_nil in Hin; contradiction.
  - intros Hvalid Hnone. rewrite Hvalid. cbn. f_equal. apply He, Hnone.
Qed.

End ProductFacts.

(** ** The further properties at work on concrete runs *)

Section MoreRuns.
Import Cache UseCase Scheduler ReadPaths Scenario Cases.

Lemma GetTopProducts_hit_witness :
  Get "top_products" (cache served) = Some (VTopProducts [bestSeller]) /\
  GetTopProducts healthy 5 served = (Ok [bestSeller], served).
Proof.
  split; [reflexivity |].
  apply (GetTopProducts_hit healthy served 5 [bestSeller]). reflexivity.
Defined.

Lemma GetTopProducts_wrong_type_witness :
  refreshAttempts (snd (GetTopProducts healthy 5 mistyped)) = 1 /\
  fst (GetTopProducts healthy 5 mistyped) = Ok [] /\
  Get "top_products" (cache (snd (GetTopProducts healthy 5 mistyped)))
    = Some (VTopProducts []).
Proof.
  apply (GetTopProducts_wrong_type healthy mistyped 5 (VInt64 3));
    reflexivity.
Defined.

Lemma GetStats_fresh_witness :
  GetStats healthy justRefreshed =
    (Ok (GetAll sampleFormat (cache justRefreshed)),
     snd (timeNow healthy justRefreshed)).
Proof.
  apply (GetStats_fresh healthy justRefreshed). vm_compute. discriminate.
Defined.

Lemma RefreshStats_success_effects_witness :
  fst (RefreshStats healthy coldStart) = None /\
  data (cache justRefreshed) = refreshedData 42 ∅ /\
  GetCategoryCounts (cache justRefreshed) = ∅ /\
  GetWishlistCounts (cache justRefreshed) = ∅ /\
  GetLastRefreshed (cache justRefreshed) = sampleClock 6 /\
  lastRefresh justRefreshed = sampleClock 7 /\
  broadcasts justRefreshed = [statsUpdatePayload] /\
  data (cache (snd (RefreshStats healthy justRefreshed)))
    = data (cache justRefreshed).
Proof.
  apply (RefreshStats_success_effects healthy coldStart [phone] 42).
  reflexivity.
Defined.

Lemma GetStats_stale_success_witness :
  fst (GetStats healthy coldStart) =
    Ok (<["last_refreshed" := VString (sampleFormat (sampleClock 7))]>
          (refreshedData 42 ∅)).
Proof.
  apply (GetStats_stale_success healthy coldStart [phone] 42).
  - vm_compute. reflexivity.
  - reflexivity.
Defined.

Lemma GetCategoryStats_listing_error_witness :
  GetCategoryStats categoriesDown categorised
    = (Fail "relation does not exist", categorised).
Proof.
  apply (GetCategoryStats_listing_error categoriesDown categorised []).
  - intros Hempty. vm_compute in Hempty. discriminate.
  - reflexivity.
Defined.

Lemma GetCategoryStats_one_per_entry_witness :
  exists stats : list CategoryStat,
    GetCategoryStats healthy categorised = (Ok stats, categorised) /\
    length stats = size (categoryCounts (cache categorised)) /\
    NoDup (cs_CategoryID <$> stats) /\
    forall stat : CategoryStat,
      stat ∈ stats <->
      categoryCounts (cache categorised) !! cs_CategoryID stat
        = Some (cs_ProductCount stat) /\
      cs_CategoryName stat
        = resolveName [electronics] (cs_CategoryID stat) "Unknown".
Proof.
  apply (GetCategoryStats_one_per_entry healthy categorised [electronics]).
  - intros Hempty. vm_compute in Hempty. discriminate.
  - reflexivity.
Defined.

Lemma GetCategoryStats_first_matching_name_witness :
  exists stats : list CategoryStat,
    fst (GetCategoryStats twoNames categorised) = Ok stats /\
    mkCategoryStat 1 "Electronics" 3 ∈ stats /\
    forall stat : CategoryStat,
      stat ∈ stats -> cs_CategoryID stat = 1%N ->
      cs_CategoryName stat = "Electronics".
Proof.
  apply (GetCategoryStats_first_matching_name twoNames categorised
           [] [gadgets] electronics 3).
  - reflexivity.
  - reflexivity.
  - intros c Hc. apply elem_of_nil in Hc. contradiction.
Defined.

Lemma GetWishlistStats_logs_failed_lookups_witness :
  snd (GetWishlistStats healthy wishlisted) =
    mkState (cache wishlisted) zeroTime 0
      ([] ++ omap (lookupFailure healthy)
               (map_to_list (wishlistCounts (cache wishlisted))))
      [].
Proof.
  apply (GetWishlistStats_logs_failed_lookups healthy wishlisted).
  intros Hempty. vm_compute in Hempty. discriminate.
Defined.

Example GetWishlistStats_log_on_wishlisted :
  log (snd (GetWishlistStats healthy wishlisted)) =
    [LogError "connection reset"
       "Failed to get product details for wishlist stats"].
Proof. vm_compute. reflexivity. Qed.

Lemma startRefreshLoop_survives_failures_witness :
  let s' := snd (startRefreshLoop listingDown 3 coldStart) in
  refreshAttempts s' = refreshAttempts coldStart + 3 /\
  failedTicks "database is down" s'
    = failedTicks "database is down" coldStart + 3 /\
  cache s' = cache coldStart /\
  lastRefresh s' = lastRefresh coldStart /\
  broadcasts s' = broadcasts coldStart.
Proof.
  apply (startRefreshLoop_survives_failures listingDown 3 coldStart
           "database is down").
  reflexivity.
Defined.

Lemma startRefreshLoop_refreshes_every_tick_witness :
  let s' := snd (startRefreshLoop healthy 2 coldStart) in
  refreshAttempts s' = refreshAttempts coldStart + 2 /\
  ticks s' = 8 * 2 + ticks coldStart /\
  length (broadcasts s') = length (broadcasts coldStart) + 2 /\
  (0 < 2 ->
   data (cache s') = refreshedData 42 (data (cache coldStart)) /\
   lastRefresh s' = clock healthy (ticks s' - 1)).
Proof.
  apply (startRefreshLoop_refreshes_every_tick healthy 2 coldStart [phone] 42).
  reflexivity.
Defined.

Lemma stats_endpoints_fail_when_listing_down_witness :
  Forall (fun reply : Handlers.Response * State =>
            Handlers.status (fst reply) = 500%Z /\
            cache (snd reply) = cache coldStart)
    [ Handlers.GetStats listingDown coldStart;
      Handlers.GetCategoryStats listingDown coldStart;
      Handlers.GetWishlistStats listingDown coldStart;
      Handlers.GetTopProducts listingDown coldStart;
      Handlers.RefreshStats listingDown coldStart ].
Proof.
  apply (stats_endpoints_fail_when_listing_down listingDown coldStart
           "database is down"); reflexivity.
Defined.

Lemma invalid_product_is_never_written_witness :
  (exists e, Products.CreateProduct shop freeWidget [1%N]
             = (Some e, freeWidget, [])) /\
  (exists e, Products.UpdateProduct shop freeWidget [1%N]
             = (Some e, freeWidget, [Products.CallFindByID 7])).
Proof.
  apply (invalid_product_is_never_written shop freeWidget [1%N]).
  right. left. vm_compute. reflexivity.
Defined.

Lemma CreateProduct_writes_complete_product_witness :
  let created := Products.setStatus "active"
                   (Products.setCategories [electronics] widget) in
  Products.CallCreate created ∈ (Products.CreateProduct shop widget [1%N]).2 /\
  Products.Status created = "active" /\
  Products.Categories created = [electronics] /\
  Products.validateProduct widget = None.
Proof.
  cbv zeta.
  assert (Hin : Products.CallCreate
                  (Products.setStatus "active"
                     (Products.setCategories [electronics] widget))
                ∈ (Products.CreateProduct shop widget [1%N]).2).
  { vm_compute. right. left. }
  split; [exact Hin |].
  destruct (CreateProduct_writes_complete_product shop widget [1%N] _ Hin)
    as (Hstatus & _ & Hcats & _ & Hvalid & _).
  split; [exact Hstatus |]. split; [exact Hcats | exact Hvalid].
Defined.

Lemma unresolved_categories_block_the_write_witness :
  let created := Products.CreateProduct shop widget [1%N; 2%N] in
  let updated := Products.UpdateProduct shop widget [1%N; 2%N] in
  (created.1.1 <> None /\ created.1.2 = widget /\
   forall p, Products.CallCreate p ∉ created.2) /\
  (updated.1.1 <> None /\ updated.1.2 = widget /\
   forall p, Products.CallUpdate p ∉ updated.2) /\
  (Products.validateProduct widget = None ->
   snd (Products.repo_FindByIDs shop [1%N; 2%N]) = None ->
   created.1.1 = Some "one or more categories not found").
Proof.
  apply (unresolved_categories_block_the_write shop widget [1%N; 2%N]).
  - discriminate.
  - right. vm_compute. discriminate.
Defined.

End MoreRuns.

(** ** Middleware and hooks *)

Section MiddlewareFacts.
Import Middleware.

(** [HandleErrors] answers only requests that carry an error and have no
    response yet, and never with [200]: the status is the writer's unless
    that is [200], then it is [500]; the body repeats the status and carries
    the text of the last error.  One line is logged whenever there is an
    error, none otherwise. *)
Theorem HandleErrors_answers_unanswered_errors (c : Context) :
  match snd (HandleErrors c) with
  | Some (status, response) =>
      Written c = false /\
      status <> 200%Z /\
      status = (if decide (WriterStatus c = 200%Z) then 500%Z
                else WriterStatus c) /\
      er_Status response = status /\
      last (Errors c) = Some (er_Error response)
  | None => Errors c = [] \/ Written c = true
  end /\
  length (fst (HandleErrors c)) = (if decide (Errors c = []) then 0 else 1).
Proof.
  unfold HandleErrors.
  destruct (Errors c) as [|e0 errs] eqn:Herrs.
  - cbn. split; [left; reflexivity | reflexivity].
  - rewrite decide_True by (cbn; lia).
    destruct (decide (e0 :: errs = [])) as [Hnil|_]; [discriminate |].
    destruct (Written c); cbn [fst snd length].
    + split; [right; reflexivity | reflexivity].
    + split; [| reflexivity].
      destruct (last (e0 :: errs)) as [e|] eqn:Hlast.
      2: { apply last_None in Hlast. discriminate. }
      cbn [default er_Status er_Error].
      destruct (decide (WriterStatus c = 200%Z)) as [Heq|Hne].
      * rewrite decide_False by (intros Hn; contradiction).
        repeat split. discriminate.
      * rewrite decide_True by exact Hne. repeat split. exact Hne.
Qed.

Lemma matchRole_elem_of (roleStr : string) (roles : list string) :
  matchRole roleStr roles = true <-> roleStr ∈ roles.
Proof.
  induction roles as [|role rest IH]; cbn.
  - split; [discriminate | intros Hin; apply elem_of_nil in Hin; contradiction].
  - destruct (decide (roleStr = role)) as [->|Hne].
    + split; [intros _; left | reflexivity].
    + rewrite IH. split; [intros Hin; right; exact Hin |].
      intros Hin. apply elem_of_cons in Hin as [Heq|Hin];
        [contradiction | exact Hin].
Qed.

(** [AuthorizeRole] lets a request through exactly when the context holds
    a string role that is one of the listed roles; it answers [401] exactly
    when the context holds no role.  With no role listed nobody gets
    through. *)
Theorem AuthorizeRole_passes_listed_roles (roles : list string)
    (keys : gmap string KeyValue) :
  (AuthorizeRole roles keys = Next <->
   exists role, keys !! "role" = Some (KString role) /\ role ∈ roles) /\
  (AuthorizeRole roles keys = Abort 401 "User not authenticated" <->
   keys !! "role" = None) /\
  AuthorizeRole [] keys <> Next.
Proof.
  unfold AuthorizeRole.
  destruct (keys !! "role") as [[n|roleStr]|]; cbn.
  - repeat split; try discriminate. intros (role & Hr & _). discriminate.
  - destruct (matchRole roleStr roles) eqn:Hmatch.
    + apply matchRole_elem_of in Hmatch.
      repeat split; try discriminate.
      intros _. exists roleStr. split; [reflexivity | exact Hmatch].
    + repeat split; try discriminate.
      intros (role & [= <-] & Hin). apply matchRole_elem_of in Hin.
      congruence.
  - repeat split; try discriminate.
    intros (role & Hr & _). discriminate.
Qed.

Lemma GetLimiter_keeps (ip ip' : string) (i : IPRateLimiter)
    (limiter : Limiter) :
  ips i !! ip' = Some limiter ->
  ips (snd (GetLimiter ip i)) !! ip' = Some limiter.
Proof.
  intros Hheld. unfold GetLimiter.
  destruct (ips i !! ip) as [l|] eqn:Hip; cbn; [exact Hheld |].
  rewrite lookup_insert_ne; [exact Hheld |]. intros ->. congruence.
Qed.

Lemma poolRun_keeps (calls : list PoolCall) (i : IPRateLimiter)
    (ip : string) (limiter : Limiter) :
  ips i !! ip = Some limiter ->
  ips (poolRun calls i) !! ip = Some limiter.
Proof.
  unfold poolRun. revert i.
  induction calls as [|call rest IH]; intros i Hheld; cbn; [exact Hheld |].
  apply IH. destruct call as [ip'|expiry]; cbn.
  - apply GetLimiter_keeps. exact Hheld.
  - exact Hheld.
Qed.

(** The pool never lets go of a limiter.  Once an address has a limiter,
    any further lookups and any number of cleanup runs later (made one after
    the other) the address still has that very limiter, and [GetLimiter]
    returns it without creating another. *)
Theorem limiters_are_never_dropped (calls : list PoolCall)
    (i : IPRateLimiter) (ip : string) (limiter : Limiter) :
  ips i !! ip = Some limiter ->
  GetLimiter ip (poolRun calls i) = (limiter, poolRun calls i).
Proof.
  intros Hheld. unfold GetLimiter.
  rewrite (poolRun_keeps calls i ip limiter Hheld). reflexivity.
Qed.

(** [GetLimiter] on an address without a limiter creates one with the
    pool's rate and burst and registers it for that address only; asking
    again returns the same limiter and changes nothing. *)
Theorem GetLimiter_creates_once (ip ip' : string) (i : IPRateLimiter) :
  ips i !! ip = None ->
  let limiter := fst (GetLimiter ip i) in
  let i' := snd (GetLimiter ip i) in
  (lim_rate limiter, lim_burst limiter) = (rate i, burst i) /\
  size (ips i') = S (size (ips i)) /\
  (ip' <> ip -> ips i' !! ip' = ips i !! ip') /\
  GetLimiter ip i' = (limiter, i').
Proof.
  intros Hnew. cbv zeta.
  assert (Hget : GetLimiter ip i =
            (mkLimiter (created i) (rate i) (burst i),
             mkIPRateLimiter
               (<[ip := mkLimiter (created i) (rate i) (burst i)]> (ips i))
               (rate i) (burst i) (S (created i)) (info i)))
    by (unfold GetLimiter; rewrite Hnew; reflexivity).
  rewrite Hget. cbn [fst snd ips lim_rate lim_burst].
  split; [reflexivity |]. split; [| split].
  - apply map_size_insert_None. exact Hnew.
  - intros Hne. apply lookup_insert_ne. congruence.
  - unfold GetLimiter; cbn [ips]. rewrite lookup_insert_eq. reflexivity.
Qed.

Lemma distinctLimiters_new (r : PrimFloat.float) (b : Z) :
  distinctLimiters (NewIPRateLimiter r b).
Proof.
  split.
  - intros ip l Hl. cbn in Hl. rewrite lookup_empty in Hl. discriminate.
  - intros ip1 ip2 l1 l2 Hl. cbn in Hl. rewrite lookup_empty in Hl.
    discriminate.
Qed.

Lemma distinctLimiters_step (i : IPRateLimiter) (call : PoolCall) :
  distinctLimiters i -> distinctLimiters (poolStep i call).
Proof.
  intros [Hbound Hinj]. destruct call as [ip|expiry]; cbn.
  2: { split; [exact Hbound | exact Hinj]. }
  unfold GetLimiter. destruct (ips i !! ip) as [l|] eqn:Hip; cbn.
  { split; [exact Hbound | exact Hinj]. }
  unfold distinctLimiters; cbn [ips created]. split.
  - intros ip' l Hl. destruct (decide (ip = ip')) as [->|Hne].
    + rewrite lookup_insert_eq in Hl. injection Hl as <-. cbn. lia.
    + rewrite lookup_insert_ne in Hl by exact Hne.
      apply Hbound in Hl. lia.
  - intros ip1 ip2 l1 l2 Hl1 Hl2 Hid.
    destruct (decide (ip = ip1)) as [Heq1|Hne1];
      destruct (decide (ip = ip2)) as [Heq2|Hne2].
    + congruence.
    + rewrite <- Heq1, lookup_insert_eq in Hl1. injection Hl1 as <-.
      rewrite lookup_insert_ne in Hl2 by exact Hne2.
      apply Hbound in Hl2. cbn in Hid. lia.
    + rewrite <- Heq2, lookup_insert_eq in Hl2. injection Hl2 as <-.
      rewrite lookup_insert_ne in Hl1 by exact Hne1.
      apply Hbound in Hl1. cbn in Hid. lia.
    + rewrite lookup_insert_ne in Hl1 by exact Hne1.
      rewrite lookup_insert_ne in Hl2 by exact Hne2.
      exact (Hinj ip1 ip2 l1 l2 Hl1 Hl2 Hid).
Qed.

Lemma distinctLimiters_run (calls : list PoolCall) (i : IPRateLimiter) :
  distinctLimiters i -> distinctLimiters (poolRun calls i).
Proof.
  unfold poolRun. revert i.
  induction calls as [|call rest IH]; intros i Hinv; cbn; [exact Hinv |].
  apply IH, distinctLimiters_step, Hinv.
Qed.

(** Starting from a new pool, whatever lookups and cleanup runs have
    happened one after the other, two different addresses never hold the
    same limiter, and every limiter held has the pool's rate and burst. *)
Theorem addresses_never_share_a_limiter (r : PrimFloat.float) (b : Z)
    (calls : list PoolCall) (ip1 ip2 : string) (l1 l2 : Limiter) :
  ips (poolRun calls (NewIPRateLimiter r b)) !! ip1 = Some l1 ->
  ips (poolRun calls (NewIPRateLimiter r b)) !! ip2 = Some l2 ->
  ip1 <> ip2 ->
  lim_id l1 <> lim_id l2 /\
  (lim_rate l1, lim_burst l1) = (r, b).
Proof.
  intros Hl1 Hl2 Hne.
  destruct (distinctLimiters_run calls _ (distinctLimiters_new r b))
    as [_ Hinj].
  split.
  - intros Hid. apply Hne. exact (Hinj ip1 ip2 l1 l2 Hl1 Hl2 Hid).
  - clear Hl2 Hne Hinj. revert Hl1.
    enough (Hconf : forall i,
      rate i = r -> burst i = b ->
      (forall ip l, ips i !! ip = Some l -> (lim_rate l, lim_burst l) = (r, b)) ->
      ips (poolRun calls i) !! ip1 = Some l1 ->
      (lim_rate l1, lim_burst l1) = (r, b)).
    { apply Hconf; [reflexivity | reflexivity |].
      intros ip l Hl. cbn in Hl. rewrite lookup_empty in Hl. discriminate. }
    unfold poolRun.
    induction calls as [|call rest IH]; intros i Hr Hb Hall Hl1; cbn in Hl1.
    + exact (Hall ip1 l1 Hl1).
    + apply (IH (poolStep i call)); try exact Hl1;
        destruct call as [ip|expiry]; cbn; try assumption;
        unfold GetLimiter; destruct (ips i !! ip) as [l|] eqn:Hip; cbn;
        try assumption.
      intros ip' l' Hl'. destruct (decide (ip = ip')) as [->|Hne'].
      * rewrite lookup_insert_eq in Hl'. injection Hl' as <-. cbn.
        rewrite Hr, Hb. reflexivity.
      * rewrite lookup_insert_ne in Hl' by exact Hne'.
        exact (Hall ip' l' Hl').
Qed.

(** The review hook clamps the rating into 1..5: a rating below 1 becomes
    1, one above 5 becomes 5, one in range is kept, and applying the hook
    again changes nothing. *)
Theorem Review_rating_is_clamped (rating : Z) :
  let clamped := Models.Review_BeforeCreate rating in
  (1 <= clamped <= 5)%Z /\
  clamped = Z.max 1 (Z.min 5 rating) /\
  Models.Review_BeforeCreate clamped = clamped.
Proof.
  cbv zeta. unfold Models.Review_BeforeCreate.
  destruct (Z.ltb_spec rating 1); [cbn; lia |].
  destruct (Z.ltb_spec 5 rating); [cbn; lia |].
  destruct (Z.ltb_spec rating 1); [lia |].
  destruct (Z.ltb_spec 5 rating); lia.
Qed.

End MiddlewareFacts.

(** ** The middleware properties at work on concrete runs *)

Section MiddlewareRuns.
Import Middleware Scenario Cases.

Lemma limiters_are_never_dropped_witness :
  ips (snd (GetLimiter "10.0.0.1" emptyPool)) !! "10.0.0.1"
    = Some firstLimiter /\
  GetLimiter "10.0.0.1"
    (poolRun afternoon (snd (GetLimiter "10.0.0.1" emptyPool)))
  = (firstLimiter,
     poolRun afternoon (snd (GetLimiter "10.0.0.1" emptyPool))).
Proof.
  split; [reflexivity |].
  apply (limiters_are_never_dropped afternoon
           (snd (GetLimiter "10.0.0.1" emptyPool)) "10.0.0.1" firstLimiter).
  reflexivity.
Defined.

Lemma GetLimiter_creates_once_witness :
  let limiter := fst (GetLimiter "10.0.0.1" emptyPool) in
  let i' := snd (GetLimiter "10.0.0.1" emptyPool) in
  (lim_rate limiter, lim_burst limiter) = (rate emptyPool, burst emptyPool) /\
  size (ips i') = S (size (ips emptyPool)) /\
  ("10.0.0.2" <> "10.0.0.1" ->
   ips i' !! "10.0.0.2" = ips emptyPool !! "10.0.0.2") /\
  GetLimiter "10.0.0.1" i' = (limiter, i').
Proof.
  apply (GetLimiter_creates_once "10.0.0.1" "10.0.0.2" emptyPool).
  reflexivity.
Defined.

Lemma addresses_never_share_a_limiter_witness :
  lim_id firstLimiter <> lim_id secondLimiter /\
  (lim_rate firstLimiter, lim_burst firstLimiter) = (PrimFloat.two, 5%Z).
Proof.
  apply (addresses_never_share_a_limiter PrimFloat.two 5 afternoon
           "10.0.0.1" "10.0.0.2" firstLimiter secondLimiter).
  - vm_compute. reflexivity.
  - vm_compute. reflexivity.
  - discriminate.
Defined.

End MiddlewareRuns.
